(** * bigcommerce-api-go: inventory and order-shipment operations

    A shallow embedding of [inventory.go] (the inventory reader and the
    order-shipment operations of the BigCommerce client) together with the
    properties of its request construction, write allow-list and
    response handling.

    Conventions of the embedding:
    - Go [int64] and [int] values are [Z]; the code only formats them.
    - Go [string] and [[]byte] values are [string] (a sequence of bytes).
    - a Go pointer [*T] is [option T] ([None] is nil); a Go slice [[]T] is
      [option (list T)] ([None] is the nil slice, [Some []] the empty one),
      because [encoding/json] tells the two apart.
    - a Go result pair [(T, error)] is a Rocq pair whose second component is
      [option error] ([None] is the nil error).
    - [map[string]string] is [gmap string string]; the order in which
      [range] visits it is an explicit parameter of the embedding.
    - every operation returns, next to its Go result, the list of requests
      it handed to the transport.
    - [defer res.Body.Close()] releases the connection and has no part in
      what an operation returns; it is left out. *)

From Stdlib Require Import ZArith String Ascii List DecimalString DecimalZ
  DecimalPos.
From stdpp Require Import gmap strings list fin_maps.

Local Open Scope Z_scope.
Local Open Scope string_scope.

(** ** Data model (inventory.go, lines 10-41 and 84-120) *)

Definition error := string.

Record Identity := {
  Sku : string;
  VariantID : Z;
  ProductID : Z
}.

Record Settings := {
  SafetyStock : Z;
  IsInStock : bool;
  WarningLevel : Z;
  BinPickingNumber : string
}.

Record Inventory := {
  Inv_Identity : Identity;
  AvailableToSell : Z;
  TotalInventoryOnhand : Z;
  Inv_Settings : Settings
}.

Record Links := {
  Previous : string;
  Current : string;
  Next : string
}.

(** Modelled from the spec: the [Pagination] struct is declared in a file of
    the package that is not part of the sources at hand. The spec describes
    the pagination block by its previous, current and next links. *)
Record Pagination := {
  Pagination_Links : Links
}.

Record Meta := {
  Meta_Pagination : Pagination
}.

Record InventoryResource := {
  Inventories : option (list Inventory);
  Resource_Meta : Meta
}.

Record ShipmentAddress := {
  FirstName : string;
  LastName : string;
  Company : string;
  Street1 : string;
  Street2 : string;
  City : string;
  State : string;
  Zip : string;
  Country : string;
  CountryIso2 : string;
  Phone : string;
  Email : string
}.

Record ShipmentItem := {
  OrderProductId : Z;
  ProductId : Z;
  Quantity : Z
}.

Record Shipment := {
  ID : Z;
  OrderId : Z;
  CustomerId : Z;
  OrderAddressId : Z;
  DateCreated : string;
  TrackingNumber : string;
  MerchantShippingCost : string;
  ShippingMethod : string;
  Comments : string;
  ShippingProvider : string;
  TrackingCarrier : string;
  BillingAddress : option ShipmentAddress;
  ShippingAddress : option ShipmentAddress;
  Items : option (list ShipmentItem)
}.

(** Go zero values: [InventoryResource{}] and [Shipment{}]. *)
Definition zero_Links : Links :=
  {| Previous := ""; Current := ""; Next := "" |}.

Definition zero_Meta : Meta :=
  {| Meta_Pagination := {| Pagination_Links := zero_Links |} |}.

Definition zero_InventoryResource : InventoryResource :=
  {| Inventories := None; Resource_Meta := zero_Meta |}.

Definition zero_Shipment : Shipment :=
  {| ID := 0; OrderId := 0; CustomerId := 0; OrderAddressId := 0;
     DateCreated := ""; TrackingNumber := ""; MerchantShippingCost := "";
     ShippingMethod := ""; Comments := ""; ShippingProvider := "";
     TrackingCarrier := ""; BillingAddress := None; ShippingAddress := None;
     Items := None |}.

(** ** The Go library functions the operations call *)

(** [fmt.Sprintf("%d", n)]: the signed decimal numeral of [n]. *)
Definition fmt_d (n : Z) : string :=
  NilZero.string_of_int (Z.to_int n).

(** [strings.Join(elems, sep)]. *)
Fixpoint strings_Join (elems : list string) (sep : string) : string :=
  match elems with
  | [] => ""
  | [e] => e
  | e :: rest => e +:+ sep +:+ strings_Join rest sep
  end.

(** *** [encoding/json]: marshalling

    [json.Marshal] is modelled in two steps: the value is turned into the
    tree of JSON members the struct encoder emits (declaration order,
    [omitempty] members left out when empty), and the tree is written in
    Go's compact form. *)

#[warnings="-register-all"]
Inductive JSON :=
| JNull
| JInt (n : Z)
| JString (s : string)
| JArray (elems : list JSON)
| JObject (members : list (string * JSON)).

Definition dquote : ascii := ascii_of_N 34.
Definition backslash : ascii := ascii_of_N 92.

(** [hex = "0123456789abcdef"], indexed by a nibble. *)
Definition hex (n : N) : ascii :=
  match String.get (N.to_nat n) "0123456789abcdef" with
  | Some c => c
  | None => "0"%char
  end.

(** [htmlSafeSet]: the ASCII bytes that [Marshal] copies unescaped. *)
Definition htmlSafeSet (b : N) : bool :=
  ((32 <=? b) && (b <? 128) &&
   negb (b =? 34) && negb (b =? 38) && negb (b =? 60) &&
   negb (b =? 62) && negb (b =? 92))%N.

(** The escape written for an ASCII byte outside [htmlSafeSet]. *)
Definition escape_byte (b : N) : string :=
  if ((b =? 92) || (b =? 34))%N then String backslash (String (ascii_of_N b) "")
  else if (b =? 8)%N then "\b"
  else if (b =? 12)%N then "\f"
  else if (b =? 10)%N then "\n"
  else if (b =? 13)%N then "\r"
  else if (b =? 9)%N then "\t"
  else "\u00" +:+ String (hex (N.shiftr b 4)) (String (hex (N.land b 15)) "").

Definition RuneError : N := 65533.

(** [utf8.first] and [utf8.acceptRanges] combined: for a leading byte, the
    length of the sequence and the range allowed for its second byte. *)
Definition utf8_first (s0 : N) : option (nat * N * N) :=
  (if (s0 <? 194) then None
   else if (s0 <=? 223) then Some (2%nat, 128, 191)
   else if (s0 =? 224) then Some (3%nat, 160, 191)
   else if (s0 <=? 236) then Some (3%nat, 128, 191)
   else if (s0 =? 237) then Some (3%nat, 128, 159)
   else if (s0 <=? 239) then Some (3%nat, 128, 191)
   else if (s0 =? 240) then Some (4%nat, 144, 191)
   else if (s0 <=? 243) then Some (4%nat, 128, 191)
   else if (s0 =? 244) then Some (4%nat, 128, 143)
   else None)%N.

Definition continuation (b : N) : bool := ((128 <=? b) && (b <=? 191))%N.

(** [utf8.DecodeRuneInString]: the first rune of [s] and its width. *)
Definition DecodeRuneInString (s : string) : N * nat :=
  match s with
  | EmptyString => (RuneError, 0%nat)
  | String c0 r0 =>
    let s0 := N_of_ascii c0 in
    if (s0 <? 128)%N then (s0, 1%nat)
    else
      match utf8_first s0, r0 with
      | None, _ | _, EmptyString => (RuneError, 1%nat)
      | Some (sz, lo, hi), String c1 r1 =>
        let s1 := N_of_ascii c1 in
        if negb ((lo <=? s1) && (s1 <=? hi))%N then (RuneError, 1%nat)
        else if (sz <=? 2)%nat then
          (N.lor (N.shiftl (N.land s0 31) 6) (N.land s1 63), 2%nat)
        else
          match r1 with
          | EmptyString => (RuneError, 1%nat)
          | String c2 r2 =>
            let s2 := N_of_ascii c2 in
            if negb (continuation s2) then (RuneError, 1%nat)
            else if (sz <=? 3)%nat then
              (N.lor (N.shiftl (N.land s0 15) 12)
                 (N.lor (N.shiftl (N.land s1 63) 6) (N.land s2 63)), 3%nat)
            else
              match r2 with
              | EmptyString => (RuneError, 1%nat)
              | String c3 _ =>
                let s3 := N_of_ascii c3 in
                if negb (continuation s3) then (RuneError, 1%nat)
                else
                  (N.lor (N.shiftl (N.land s0 7) 18)
                     (N.lor (N.shiftl (N.land s1 63) 12)
                        (N.lor (N.shiftl (N.land s2 63) 6) (N.land s3 63))),
                   4%nat)
              end
          end
      end
  end.

(** The body of [appendString] with [escapeHTML] set, as [Marshal] runs it.
    [skip] counts the bytes of the current rune still to pass over; they
    are copied when [keep] holds and dropped when an escape replaced them. *)
Fixpoint appendString_body (skip : nat) (keep : bool) (src : string) : string :=
  match src with
  | EmptyString => ""
  | String b rest =>
    match skip with
    | S k =>
      if keep then String b (appendString_body k keep rest)
      else appendString_body k keep rest
    | O =>
      let n := N_of_ascii b in
      if (n <? 128)%N then
        if htmlSafeSet n then String b (appendString_body 0 true rest)
        else escape_byte n +:+ appendString_body 0 true rest
      else
        let '(c, size) := DecodeRuneInString src in
        if ((c =? RuneError)%N && (size =? 1)%nat)%bool then
          String backslash "ufffd" +:+ appendString_body 0 true rest
        else if ((c =? 8232) || (c =? 8233))%N then
          "\u202" +:+ String (hex (N.land c 15))
                        (appendString_body (size - 1) false rest)
        else String b (appendString_body (size - 1) true rest)
    end
  end.

Definition appendString (src : string) : string :=
  String dquote (appendString_body 0 true src +:+ String dquote "").

(** The compact text of a JSON tree. *)
Fixpoint encode (v : JSON) : string :=
  match v with
  | JNull => "null"
  | JInt n => fmt_d n
  | JString s => appendString s
  | JArray elems => "[" +:+ strings_Join (List.map encode elems) "," +:+ "]"
  | JObject members =>
    "{" +:+
    strings_Join
      (List.map (fun kv => appendString (fst kv) +:+ ":" +:+ encode (snd kv))
         members) ","
    +:+ "}"
  end.

(** Struct members: a plain member is always written, an [omitempty]
    member only when its value is not the empty value of its type. *)
Definition member (name : string) (v : JSON) : list (string * JSON) :=
  [(name, v)].

Definition omitempty_int (name : string) (n : Z) : list (string * JSON) :=
  if (n =? 0)%Z then [] else [(name, JInt n)].

Definition omitempty_string (name s : string) : list (string * JSON) :=
  if String.eqb s "" then [] else [(name, JString s)].

Definition omitempty_ptr {A} (name : string) (enc : A -> JSON) (p : option A)
  : list (string * JSON) :=
  match p with
  | None => []
  | Some a => [(name, enc a)]
  end.

(** A slice member without [omitempty]: nil is written as [null]. *)
Definition slice_json {A} (enc : A -> JSON) (s : option (list A)) : JSON :=
  match s with
  | None => JNull
  | Some l => JArray (List.map enc l)
  end.

Definition ShipmentItem_json (i : ShipmentItem) : JSON :=
  JObject
    (member "order_product_id" (JInt (OrderProductId i)) ++
     omitempty_int "product_id" (ProductId i) ++
     member "quantity" (JInt (Quantity i))).

Definition ShipmentAddress_json (a : ShipmentAddress) : JSON :=
  JObject
    (member "first_name" (JString (FirstName a)) ++
     member "last_name" (JString (LastName a)) ++
     member "company" (JString (Company a)) ++
     member "street_1" (JString (Street1 a)) ++
     member "street_2" (JString (Street2 a)) ++
     member "city" (JString (City a)) ++
     member "state" (JString (State a)) ++
     member "zip" (JString (Zip a)) ++
     member "country" (JString (Country a)) ++
     member "country_iso2" (JString (CountryIso2 a)) ++
     member "phone" (JString (Phone a)) ++
     member "email" (JString (Email a))).

Definition Shipment_members (s : Shipment) : list (string * JSON) :=
  omitempty_int "id" (ID s) ++
  omitempty_int "order_id" (OrderId s) ++
  omitempty_int "customer_id" (CustomerId s) ++
  omitempty_int "order_address_id" (OrderAddressId s) ++
  omitempty_string "date_created" (DateCreated s) ++
  member "tracking_number" (JString (TrackingNumber s)) ++
  member "merchant_shipping_cost" (JString (MerchantShippingCost s)) ++
  member "shipping_method" (JString (ShippingMethod s)) ++
  member "comments" (JString (Comments s)) ++
  member "shipping_provider" (JString (ShippingProvider s)) ++
  member "tracking_carrier" (JString (TrackingCarrier s)) ++
  omitempty_ptr "billing_address" ShipmentAddress_json (BillingAddress s) ++
  omitempty_ptr "shipping_address" ShipmentAddress_json (ShippingAddress s) ++
  member "items" (slice_json ShipmentItem_json (Items s)).

Definition Shipment_json (s : Shipment) : JSON :=
  JObject (Shipment_members s).

(** [json.Marshal(shipment)]: no member of [Shipment] has a type the
    encoder rejects, so the error is always nil. *)
Definition json_Marshal (s : Shipment) : string * option error :=
  (encode (Shipment_json s), None).

(** ** Requests, responses and the client *)

Record Request := {
  Method : string;
  URL : string;
  Body : option string
}.

(** Modelled from the spec: [getAPIRequest] is defined in a file of the
    package that is not part of the sources at hand. The spec has it build
    the authenticated request for a method, a path and optional body bytes;
    the authentication itself is delegated and carries no information the
    operations depend on. [URL] is the path the operation passes in, and a
    nil body reader is [None]. *)
Definition getAPIRequest (method url : string) (body : option string) : Request :=
  {| Method := method; URL := url; Body := body |}.

(** An [*http.Response]: the status code, and what reading the body stream
    to its end gives (the bytes, or the read error). *)
Record Response := {
  StatusCode : Z;
  Response_Body : string + error
}.

(** The client: [bc.HTTPClient.Do(req)] answers with a response or with a
    transport error ([net/http] returns a non-nil response exactly when the
    error is nil). *)
Record Client := {
  HTTPClient_Do : Request -> Response + error
}.

Definition MethodGet : string := "GET".
Definition MethodPost : string := "POST".
Definition MethodPut : string := "PUT".
Definition MethodDelete : string := "DELETE".
Definition StatusNoContent : Z := 204.

(** What an operation hands back: the requests it gave to the transport,
    and the Go result pair. *)
Definition sent {A} (o : list Request * A) : list Request := fst o.
Definition result {A} (o : list Request * A) : A := snd o.

(** The write allow-list: the struct literal that [CreateOrderShipment]
    (lines 159-167) and [UpdateOrderShipment] (lines 260-268) assign to
    [shipment] before marshalling. Members not named in the literal take
    their zero value. *)
Definition allowed_fields (shipment : Shipment) : Shipment :=
  {| ID := 0;
     OrderId := 0;
     CustomerId := 0;
     OrderAddressId := OrderAddressId shipment;
     DateCreated := "";
     TrackingNumber := TrackingNumber shipment;
     MerchantShippingCost := "";
     ShippingMethod := ShippingMethod shipment;
     Comments := Comments shipment;
     ShippingProvider := ShippingProvider shipment;
     TrackingCarrier := TrackingCarrier shipment;
     BillingAddress := None;
     ShippingAddress := None;
     Items := Items shipment |}.

(** The loop [for k, v := range filters { params = append(params,
    fmt.Sprintf("%s=%s", k, v)) }] over the entries in the order [range]
    yields them, starting from the nil slice. *)
Definition filter_params (entries : list (string * string)) : list string :=
  foldl (fun params kv => (params ++ [fst kv +:+ "=" +:+ snd kv])%list)
    [] entries.

(** ** Reading a URL back

    What the receiving side does with the text of a URL, used to say what
    a URL built by the operations means. *)

(** Whether the byte [c] occurs in [s]. *)
Fixpoint occurs (c : ascii) (s : string) : bool :=
  match s with
  | EmptyString => false
  | String a rest => Ascii.eqb a c || occurs c rest
  end.

(** The pieces of [s] between the occurrences of [sep], as
    [strings.Split] gives them for a one-byte separator. *)
Fixpoint split_on (sep : ascii) (s : string) : list string :=
  match s with
  | EmptyString => [EmptyString]
  | String a rest =>
    if Ascii.eqb a sep then EmptyString :: split_on sep rest
    else
      match split_on sep rest with
      | piece :: pieces => String a piece :: pieces
      | [] => [String a EmptyString]
      end
  end.

(** The text before and after the first [sep] of [s], as [strings.Cut]
    gives them; without a [sep], all of [s] and the empty text. *)
Fixpoint cut (sep : ascii) (s : string) : string * string :=
  match s with
  | EmptyString => (EmptyString, EmptyString)
  | String a rest =>
    if Ascii.eqb a sep then (EmptyString, rest)
    else (String a (fst (cut sep rest)), snd (cut sep rest))
  end.

(** The key and value pairs of a query: its pieces between [&], the empty
    ones skipped, each cut at its first [=]. This is the splitting step of
    [url.ParseQuery]; percent-decoding is not applied. *)
Definition split_query (query : string) : list (string * string) :=
  List.map (cut "=")
    (List.filter (fun piece => negb (String.eqb piece ""))
       (split_on "&" query)).

(** The non-empty pieces of a query between its [&]: the segments a
    reader of the query sees. *)
Definition query_pieces (query : string) : list string :=
  List.filter (fun piece => negb (String.eqb piece ""))
    (split_on "&" query).

(** An entry whose key holds neither [&] nor [=] and whose value holds no
    [&] can be read back from its segment. *)
Definition readable (kv : string * string) : Prop :=
  occurs "&" (fst kv) = false /\ occurs "=" (fst kv) = false
  /\ occurs "&" (snd kv) = false.

(** ** Stand-ins used by the examples

    The operations are embedded over any [processBody], any decoder and any
    visiting order. The examples run them with the following ones. *)

Definition ErrNoContent : error := "no content".

(** Modelled from the spec: [processBody] is defined in a file of the
    package that is not part of the sources at hand. The spec has it return
    the raw body bytes or fail with the read error, and short-circuit
    status 204 with a no-content error instead of reading the body. *)
Definition processBody_spec (res : Response) : string * option error :=
  if (StatusCode res =? StatusNoContent)%Z then ("", Some ErrNoContent)
  else
    match Response_Body res with
    | inl body => (body, None)
    | inr err => ("", Some err)
    end.

(** A decoder for the examples. It agrees with [json.Unmarshal] on the text
    [null], which leaves the variable at its zero value, and on texts that
    are not JSON, which it rejects; the examples give it nothing else. *)
Definition unmarshal_null {A} (zero : A) (data : string) : A * option error :=
  if String.eqb data "null" then (zero, None)
  else (zero, Some "invalid character looking for beginning of value").

(** A visiting order for the examples: the entries as [map_to_list]
    enumerates them. *)
Definition range_sorted (m : gmap string string) : list (string * string) :=
  map_to_list m.

(** A body extraction for the examples that reads the body stream
    whatever the status is. *)
Definition processBody_reading (res : Response) : string * option error :=
  match Response_Body res with
  | inl body => (body, None)
  | inr err => ("", Some err)
  end.

(** A server that answers every request with the same status and body
    stream. *)
Definition client_answering (status : Z) (body : string + error) : Client :=
  {| HTTPClient_Do := fun _ =>
       inl {| StatusCode := status; Response_Body := body |} |}.

(** A transport that fails every request with the same error. *)
Definition client_failing (err : error) : Client :=
  {| HTTPClient_Do := fun _ => inr err |}.

(** Writes a JSON text with apostrophes in place of double quotes. *)
Fixpoint quoted (s : string) : string :=
  match s with
  | EmptyString => EmptyString
  | String c rest =>
    String (if Ascii.eqb c "'"%char then dquote else c) (quoted rest)
  end.

Section Operations.

(** [processBody] and the three instances of [json.Unmarshal] belong to
    files and libraries outside the sources at hand; the operations are
    embedded over any behaviour of theirs. Each returns the Go pair: the
    value (for [Unmarshal], the variable it filled, starting from its
    zero value) and the error. *)
Variable processBody : Response -> string * option error.
Variable json_Unmarshal_InventoryResource :
  string -> InventoryResource * option error.
Variable json_Unmarshal_Shipments :
  string -> option (list Shipment) * option error.
Variable json_Unmarshal_Shipment :
  string -> option Shipment * option error.

(** The order in which [range] visits a map is not specified by Go: it
    is some enumeration of the entries, each visited once. *)
Variable range_order : gmap string string -> list (string * string).
Hypothesis range_order_perm :
  forall m, range_order m ≡ₚ map_to_list m.

Definition GetInventoryForLocation
    (bc : Client) (locID : Z) (filters : gmap string string)
  : list Request * (option InventoryResource * option error) :=
  let params := filter_params (range_order filters) in
  let url :=
    ("/v3/inventory/locations/" +:+ fmt_d locID +:+ "/items")
    +:+ strings_Join params "&" in
  let req := getAPIRequest MethodGet url None in
  ([req],
   match HTTPClient_Do bc req with
   | inr err => (None, Some err)
   | inl res =>
     let '(body, err) := processBody res in
     match err with
     | Some err =>
       if (StatusCode res =? StatusNoContent)%Z
       then (Some zero_InventoryResource, None)
       else (None, Some err)
     | None =>
       let '(resource, err) := json_Unmarshal_InventoryResource body in
       match err with
       | Some err => (None, Some err)
       | None => (Some resource, None)
       end
     end
   end).

Definition GetOrderShipments
    (bc : Client) (orderId : Z) (filters : gmap string string)
  : list Request * (option (list Shipment) * option error) :=
  let params := filter_params (range_order filters) in
  let url :=
    "/v2/orders/" +:+ fmt_d orderId +:+ "/shipments?"
    +:+ strings_Join params "&" in
  let req := getAPIRequest MethodGet url None in
  ([req],
   match HTTPClient_Do bc req with
   | inr err => (None, Some err)
   | inl res =>
     let '(body, err) := processBody res in
     match err with
     | Some err =>
       if (StatusCode res =? StatusNoContent)%Z
       then (Some [], None)
       else (None, Some err)
     | None =>
       let '(shipments, err) := json_Unmarshal_Shipments body in
       match err with
       | Some err => (None, Some err)
       | None => (shipments, None)
       end
     end
   end).

Definition CreateOrderShipment (bc : Client) (orderId : Z) (shipment : Shipment)
  : list Request * (option Shipment * option error) :=
  let url := "/v2/orders/" +:+ fmt_d orderId +:+ "/shipments" in
  let shipment := allowed_fields shipment in
  let '(reqJSON, err) := json_Marshal shipment in
  match err with
  | Some err => ([], (None, Some err))
  | None =>
    let req := getAPIRequest MethodPost url (Some reqJSON) in
    ([req],
     match HTTPClient_Do bc req with
     | inr err => (None, Some err)
     | inl res =>
       let '(body, err) := processBody res in
       match err with
       | Some err =>
         if (StatusCode res =? StatusNoContent)%Z
         then (Some zero_Shipment, None)
         else (None, Some err)
       | None =>
         let '(s, err) := json_Unmarshal_Shipment body in
         match err with
         | Some err => (None, Some err)
         | None => (s, None)
         end
       end
     end)
  end.

Definition DeleteOrderShipments (bc : Client) (orderId : Z)
  : list Request * (bool * option error) :=
  let url := "/v2/orders/" +:+ fmt_d orderId +:+ "/shipments" in
  let req := getAPIRequest MethodDelete url None in
  ([req],
   match HTTPClient_Do bc req with
   | inr err => (false, Some err)
   | inl _ => (true, None)
   end).

Definition DeleteOrderShipment (bc : Client) (orderId shipmentId : Z)
  : list Request * (bool * option error) :=
  let url :=
    "/v2/orders/" +:+ fmt_d orderId +:+ "/shipments/" +:+ fmt_d shipmentId in
  let req := getAPIRequest MethodDelete url None in
  ([req],
   match HTTPClient_Do bc req with
   | inr err => (false, Some err)
   | inl _ => (true, None)
   end).

Definition GetOrderShipment (bc : Client) (orderId shipmentId : Z)
  : list Request * (option Shipment * option error) :=
  let url :=
    "/v2/orders/" +:+ fmt_d orderId +:+ "/shipments/" +:+ fmt_d shipmentId in
  let req := getAPIRequest MethodGet url None in
  ([req],
   match HTTPClient_Do bc req with
   | inr err => (None, Some err)
   | inl res =>
     let '(body, err) := processBody res in
     match err with
     | Some err =>
       if (StatusCode res =? StatusNoContent)%Z
       then (Some zero_Shipment, None)
       else (None, Some err)
     | None =>
       let '(shipment, err) := json_Unmarshal_Shipment body in
       match err with
       | Some err => (None, Some err)
       | None => (shipment, None)
       end
     end
   end).

Definition UpdateOrderShipment (bc : Client) (orderId : Z) (shipment : Shipment)
  : list Request * (option Shipment * option error) :=
  let url :=
    "/v2/orders/" +:+ fmt_d orderId +:+ "/shipments/" +:+ fmt_d (ID shipment) in
  let shipment := allowed_fields shipment in
  let '(reqJSON, err) := json_Marshal shipment in
  match err with
  | Some err => ([], (None, Some err))
  | None =>
    let req := getAPIRequest MethodPut url (Some reqJSON) in
    ([req],
     match HTTPClient_Do bc req with
     | inr err => (None, Some err)
     | inl res =>
       let '(body, err) := processBody res in
       match err with
       | Some err =>
         if (StatusCode res =? StatusNoContent)%Z
         then (Some zero_Shipment, None)
         else (None, Some err)
       | None =>
         let '(s, err) := json_Unmarshal_Shipment body in
         match err with
         | Some err => (None, Some err)
         | None => (s, None)
         end
       end
     end)
  end.

(** *** The situations the error-handling properties speak about

    Each names what happened to the one request of an operation's
    outcome [o] under the client [bc]. *)

(** The transport failed with [err]. *)
Definition transport_failed {A} (bc : Client) (o : list Request * A)
    (err : error) : Prop :=
  exists req, sent o = [req] /\ HTTPClient_Do bc req = inr err.

(** The transport answered with [res]. *)
Definition answered {A} (bc : Client) (o : list Request * A)
    (res : Response) : Prop :=
  exists req, sent o = [req] /\ HTTPClient_Do bc req = inl res.

(** Extracting the body of [res] failed with [err]. *)
Definition extraction_failed (res : Response) (err : error) : Prop :=
  exists body, processBody res = (body, Some err).

(** The body of [res] was extracted and [unmarshal] rejected it with
    [err]. *)
Definition decode_failed {B} (unmarshal : string -> B * option error)
    (res : Response) (err : error) : Prop :=
  exists body v,
    processBody res = (body, None) /\ unmarshal body = (v, Some err).

(** The body of [res] was extracted and [unmarshal] accepted it, leaving
    [v] in the variable. *)
Definition decoded {B} (unmarshal : string -> B * option error)
    (res : Response) (v : B) : Prop :=
  exists body,
    processBody res = (body, None) /\ unmarshal body = (v, None).

(** The text of one filter entry in the query. *)
Definition segment (kv : string * string) : string :=
  fst kv +:+ "=" +:+ snd kv.

(** The text [query] has exactly one segment for each entry of [filters]:
    its pieces between [&] are as many as the entries, and they are the
    texts [key=value] of the entries, each entry once. *)
Definition exactly_one_segment_per_entry
    (query : string) (filters : gmap string string) : Prop :=
  length (query_pieces query) = size filters
  /\ query_pieces query ≡ₚ List.map segment (map_to_list filters).

(** The names of the members of the JSON object [json.Marshal] writes
    for a shipment. *)
Definition body_member_names (s : Shipment) : list string :=
  List.map fst (Shipment_members s).

(** ** Properties of request construction *)

Lemma append_nil_r (s : string) : s +:+ "" = s.
Proof.
  induction s as [|c s IH]; [done|].
  change (String c (s +:+ "") = String c s). by rewrite IH.
Qed.

Lemma append_assoc (s1 s2 s3 : string) :
  s1 +:+ (s2 +:+ s3) = (s1 +:+ s2) +:+ s3.
Proof.
  induction s1 as [|c s1 IH]; [done|].
  change (String c (s1 +:+ (s2 +:+ s3)) = String c ((s1 +:+ s2) +:+ s3)).
  by rewrite IH.
Qed.

(** The loop over the filter entries produces one segment per entry, in
    the order the entries are visited. *)
Lemma filter_params_acc (acc : list string) (entries : list (string * string)) :
  foldl (fun params kv => (params ++ [fst kv +:+ "=" +:+ snd kv])%list)
    acc entries
  = (acc ++ List.map segment entries)%list.
Proof.
  revert acc.
  induction entries as [|kv entries IH]; intros acc; simpl.
  - by rewrite app_nil_r.
  - rewrite IH. by rewrite <- app_assoc.
Qed.

Lemma filter_params_segments (entries : list (string * string)) :
  filter_params entries = List.map segment entries.
Proof. unfold filter_params. by rewrite filter_params_acc. Qed.

Lemma range_order_empty : range_order ∅ = [].
Proof.
  apply Permutation_nil_r.
  rewrite <- (map_to_list_empty (M := gmap string) (A := string)).
  apply range_order_perm.
Qed.

Lemma range_order_singleton (k v : string) :
  range_order {[ k := v ]} = [(k, v)].
Proof.
  apply Permutation_singleton_r.
  rewrite <- (map_to_list_singleton (M := gmap string) k v).
  apply range_order_perm.
Qed.

Lemma range_order_length (m : gmap string string) :
  length (range_order m) = size m.
Proof.
  rewrite (Permutation_length (range_order_perm m)).
  by rewrite length_map_to_list.
Qed.

(** C4. [GetInventoryForLocation] requests the path
    [/v3/inventory/locations/{locationId}/items] immediately followed by
    the filter segments joined with [&]: nothing, in particular no [?],
    stands between the path and the first segment. For location 42 and
    the single filter [sku.in = A,B] the URL is
    [/v3/inventory/locations/42/itemssku.in=A,B]. *)
Theorem inventory_url_appends_filters_directly
    (bc : Client) (locID : Z) (filters : gmap string string) :
  sent (GetInventoryForLocation bc locID filters)
  = [ {| Method := "GET";
         URL := "/v3/inventory/locations/" +:+ fmt_d locID +:+ "/items"
                +:+ strings_Join (List.map segment (range_order filters)) "&";
         Body := None |} ]
  /\ sent (GetInventoryForLocation bc 42 {[ "sku.in" := "A,B" ]})
     = [ {| Method := "GET";
            URL := "/v3/inventory/locations/42/itemssku.in=A,B";
            Body := None |} ].
Proof.
  split.
  - unfold GetInventoryForLocation, sent, getAPIRequest, MethodGet; simpl.
    rewrite filter_params_segments.
    by rewrite <- !append_assoc.
  - unfold GetInventoryForLocation, sent; simpl.
    by rewrite range_order_singleton.
Qed.

(** C9. With an empty filter mapping [GetOrderShipments] requests
    [/v2/orders/{orderId}/shipments?], and for any mapping its URL has
    the [?] right after the path; [GetInventoryForLocation] with an empty
    mapping requests the bare path
    [/v3/inventory/locations/{locationId}/items]. *)
Theorem empty_filters_separator_conventions
    (bc : Client) (locID orderId : Z) (filters : gmap string string) :
  sent (GetOrderShipments bc orderId ∅)
  = [ getAPIRequest MethodGet
        ("/v2/orders/" +:+ fmt_d orderId +:+ "/shipments?") None ]
  /\ (exists query,
        sent (GetOrderShipments bc orderId filters)
        = [ getAPIRequest MethodGet
              (("/v2/orders/" +:+ fmt_d orderId +:+ "/shipments")
               +:+ "?" +:+ query) None ])
  /\ sent (GetInventoryForLocation bc locID ∅)
     = [ getAPIRequest MethodGet
           ("/v3/inventory/locations/" +:+ fmt_d locID +:+ "/items") None ].
Proof.
  split; [|split].
  - unfold GetOrderShipments, sent; simpl.
    by rewrite range_order_empty.
  - exists (strings_Join (filter_params (range_order filters)) "&").
    unfold GetOrderShipments, sent; simpl.
    by rewrite <- !append_assoc.
  - unfold GetInventoryForLocation, sent; simpl.
    rewrite range_order_empty; simpl.
    by rewrite append_nil_r.
Qed.

(** ** Properties of the write allow-list *)

(** Unfolds an operation down to the request it builds and the case
    analysis on what the transport, [processBody] and the decoder
    return. *)
Ltac run_operation :=
  cbv beta iota zeta delta
    [GetInventoryForLocation GetOrderShipments GetOrderShipment
     CreateOrderShipment UpdateOrderShipment
     DeleteOrderShipments DeleteOrderShipment
     json_Marshal sent result fst snd].

Lemma allowed_fields_members (shipment : Shipment) :
  Shipment_members (allowed_fields shipment)
  = (omitempty_int "order_address_id" (OrderAddressId shipment) ++
     [ ("tracking_number", JString (TrackingNumber shipment));
       ("merchant_shipping_cost", JString "");
       ("shipping_method", JString (ShippingMethod shipment));
       ("comments", JString (Comments shipment));
       ("shipping_provider", JString (ShippingProvider shipment));
       ("tracking_carrier", JString (TrackingCarrier shipment));
       ("items", slice_json ShipmentItem_json (Items shipment)) ])%list.
Proof. reflexivity. Qed.

Lemma allowed_fields_member_names (shipment : Shipment) :
  body_member_names (allowed_fields shipment)
  = ((if (OrderAddressId shipment =? 0)%Z then [] else ["order_address_id"]) ++
     [ "tracking_number"; "merchant_shipping_cost"; "shipping_method";
       "comments"; "shipping_provider"; "tracking_carrier"; "items" ])%list.
Proof.
  unfold body_member_names. rewrite allowed_fields_members.
  unfold omitempty_int. by destruct (OrderAddressId shipment =? 0)%Z.
Qed.

Lemma not_writable_names_absent (shipment : Shipment) :
  Forall (fun name => name ∉ body_member_names (allowed_fields shipment))
    [ "id"; "order_id"; "customer_id"; "date_created";
      "billing_address"; "shipping_address" ].
Proof.
  rewrite allowed_fields_member_names.
  destruct (OrderAddressId shipment =? 0)%Z;
    repeat (apply List.Forall_cons;
            [apply (bool_decide_unpack _); vm_compute; exact I|]);
    apply List.Forall_nil.
Qed.

(** C1. What [CreateOrderShipment] and [UpdateOrderShipment] serialize
    into the request body is the reconstruction of the input shipment
    that keeps only orderAddressId, trackingNumber, shippingMethod,
    comments, shippingProvider, trackingCarrier and items. Whatever the
    input holds in billingAddress, shippingAddress, id, orderId,
    customerId or dateCreated, the JSON object of the body has no member
    of those names. *)
Theorem write_body_is_the_allow_list_reconstruction
    (bc : Client) (orderId : Z) (shipment : Shipment) :
  sent (CreateOrderShipment bc orderId shipment)
  = [ {| Method := "POST";
         URL := "/v2/orders/" +:+ fmt_d orderId +:+ "/shipments";
         Body := Some (encode (JObject
                   (Shipment_members (allowed_fields shipment)))) |} ]
  /\ sent (UpdateOrderShipment bc orderId shipment)
     = [ {| Method := "PUT";
            URL := "/v2/orders/" +:+ fmt_d orderId +:+ "/shipments/"
                   +:+ fmt_d (ID shipment);
            Body := Some (encode (JObject
                      (Shipment_members (allowed_fields shipment)))) |} ]
  /\ Shipment_members (allowed_fields shipment)
     = (omitempty_int "order_address_id" (OrderAddressId shipment) ++
        [ ("tracking_number", JString (TrackingNumber shipment));
          ("merchant_shipping_cost", JString "");
          ("shipping_method", JString (ShippingMethod shipment));
          ("comments", JString (Comments shipment));
          ("shipping_provider", JString (ShippingProvider shipment));
          ("tracking_carrier", JString (TrackingCarrier shipment));
          ("items", slice_json ShipmentItem_json (Items shipment)) ])%list
  /\ Forall (fun name => name ∉ body_member_names (allowed_fields shipment))
       [ "id"; "order_id"; "customer_id"; "date_created";
         "billing_address"; "shipping_address" ].
Proof.
  split; [|split; [|split]].
  - by run_operation.
  - by run_operation.
  - apply allowed_fields_members.
  - apply not_writable_names_absent.
Qed.

(** C7. Creating, for order 55, the shipment with tracking number
    [1Z999] and the single item (order product 10, quantity 2) issues a
    POST to [/v2/orders/55/shipments] whose body is exactly the JSON text
    of the scenario: the address blocks and id, order_id, customer_id and
    date_created do not occur in it. *)
Theorem create_shipment_scenario_body (bc : Client) :
  sent (CreateOrderShipment bc 55
          {| ID := 0; OrderId := 0; CustomerId := 0; OrderAddressId := 0;
             DateCreated := ""; TrackingNumber := "1Z999";
             MerchantShippingCost := ""; ShippingMethod := "";
             Comments := ""; ShippingProvider := ""; TrackingCarrier := "";
             BillingAddress := None; ShippingAddress := None;
             Items := Some [ {| OrderProductId := 10; ProductId := 0;
                                Quantity := 2 |} ] |})
  = [ {| Method := "POST";
         URL := "/v2/orders/55/shipments";
         Body := Some (quoted
           "{'tracking_number':'1Z999','merchant_shipping_cost':'','shipping_method':'','comments':'','shipping_provider':'','tracking_carrier':'','items':[{'order_product_id':10,'quantity':2}]}") |} ].
Proof. reflexivity. Qed.

(** C8. The allow-list reconstruction is idempotent: applying it twice
    gives what applying it once gives. Hence creating a shipment from an
    already reconstructed value is the same call, and updating from one
    sends the same body. *)
Theorem allow_list_reconstruction_idempotent
    (bc : Client) (orderId : Z) (s : Shipment) :
  allowed_fields (allowed_fields s) = allowed_fields s
  /\ CreateOrderShipment bc orderId (allowed_fields s)
     = CreateOrderShipment bc orderId s
  /\ List.map Body (sent (UpdateOrderShipment bc orderId (allowed_fields s)))
     = List.map Body (sent (UpdateOrderShipment bc orderId s)).
Proof.
  assert (Hidem : allowed_fields (allowed_fields s) = allowed_fields s)
    by reflexivity.
  split; [exact Hidem|split].
  - unfold CreateOrderShipment. by rewrite Hidem.
  - unfold UpdateOrderShipment. by rewrite Hidem.
Qed.

(** C10. [UpdateOrderShipment] takes the shipment id of the request path
    [/v2/orders/{orderId}/shipments/{shipment.ID}] from the caller's
    value, read before the reconstruction sets the id to zero; the body
    has no [id] member and is the same whatever the id is. An input with
    id 0 issues a PUT to [/v2/orders/{orderId}/shipments/0]. *)
Theorem update_path_uses_the_caller_id
    (bc : Client) (orderId : Z) (shipment : Shipment) :
  sent (UpdateOrderShipment bc orderId shipment)
  = [ {| Method := "PUT";
         URL := "/v2/orders/" +:+ fmt_d orderId +:+ "/shipments/"
                +:+ fmt_d (ID shipment);
         Body := Some (encode (Shipment_json (allowed_fields shipment))) |} ]
  /\ ID (allowed_fields shipment) = 0
  /\ ("id" ∉ body_member_names (allowed_fields shipment))
  /\ (forall shipment',
        allowed_fields shipment' = allowed_fields shipment ->
        List.map Body (sent (UpdateOrderShipment bc orderId shipment'))
        = List.map Body (sent (UpdateOrderShipment bc orderId shipment)))
  /\ (ID shipment = 0 ->
      List.map (fun req => (Method req, URL req))
        (sent (UpdateOrderShipment bc orderId shipment))
      = [ ("PUT", "/v2/orders/" +:+ fmt_d orderId +:+ "/shipments/0") ]).
Proof.
  split; [|split; [|split; [|split]]].
  - by run_operation.
  - reflexivity.
  - pose proof (not_writable_names_absent shipment) as Habsent.
    by inversion Habsent.
  - intros shipment' Hsame. run_operation. by rewrite Hsame.
  - intros Hzero. run_operation. by rewrite Hzero.
Qed.

(** ** Properties of response handling *)

Lemma one_request (req req' : Request) : [req] = [req'] -> req = req'.
Proof. congruence. Qed.

(** Settles what an operation returns once the hypotheses say what the
    transport, [processBody] and the decoder returned for its request. *)
Ltac settle_reply :=
  unfold answered, transport_failed, extraction_failed, decode_failed;
  run_operation; intros;
  repeat match goal with
    | H : exists _, _ |- _ => destruct H
    | H : _ /\ _ |- _ => destruct H
    | H : [_] = [_] |- _ => apply one_request in H; subst
    | H : HTTPClient_Do _ _ = _ |- _ => rewrite H
    | H : processBody _ = _ |- _ => rewrite H
    | H : json_Unmarshal_InventoryResource _ = _ |- _ => rewrite H
    | H : json_Unmarshal_Shipments _ = _ |- _ => rewrite H
    | H : json_Unmarshal_Shipment _ = _ |- _ => rewrite H
    | H : StatusCode _ = _ |- _ => rewrite H
    | H : StatusCode ?r <> StatusNoContent |- _ =>
      apply Z.eqb_neq in H; rewrite H
    end;
  try reflexivity.

(** C2. When the transport answered an operation's request with status
    204 and extracting the body failed, [GetInventoryForLocation]
    returns the empty resource, [GetOrderShipments] the empty list, and
    [GetOrderShipment], [CreateOrderShipment] and [UpdateOrderShipment]
    the zero-value shipment, each with a nil error. *)
Theorem no_content_yields_zero_value_and_nil_error
    (bc : Client) (locID orderId shipmentId : Z)
    (filters : gmap string string) (shipment : Shipment)
    (res : Response) (err : error) :
  StatusCode res = StatusNoContent ->
  extraction_failed res err ->
  (answered bc (GetInventoryForLocation bc locID filters) res ->
   result (GetInventoryForLocation bc locID filters)
   = (Some zero_InventoryResource, None))
  /\ (answered bc (GetOrderShipments bc orderId filters) res ->
      result (GetOrderShipments bc orderId filters) = (Some [], None))
  /\ (answered bc (GetOrderShipment bc orderId shipmentId) res ->
      result (GetOrderShipment bc orderId shipmentId)
      = (Some zero_Shipment, None))
  /\ (answered bc (CreateOrderShipment bc orderId shipment) res ->
      result (CreateOrderShipment bc orderId shipment)
      = (Some zero_Shipment, None))
  /\ (answered bc (UpdateOrderShipment bc orderId shipment) res ->
      result (UpdateOrderShipment bc orderId shipment)
      = (Some zero_Shipment, None)).
Proof.
  intros Hstatus Hextract.
  repeat split; revert Hstatus Hextract; settle_reply.
Qed.

(** C3. [DeleteOrderShipments] and [DeleteOrderShipment] return
    [(true, nil)] whenever the transport answered, whatever the status
    and the body of the answer are: neither is looked at. Thus
    [DeleteOrderShipment(7, 99)] reports success when the server answers
    404. *)
Theorem delete_succeeds_whatever_the_status
    (bc : Client) (orderId shipmentId : Z) (res : Response) :
  (answered bc (DeleteOrderShipments bc orderId) res ->
   result (DeleteOrderShipments bc orderId) = (true, None))
  /\ (answered bc (DeleteOrderShipment bc orderId shipmentId) res ->
      result (DeleteOrderShipment bc orderId shipmentId) = (true, None))
  /\ (forall body,
        result (DeleteOrderShipment (client_answering 404 body) 7 99)
        = (true, None)).
Proof.
  repeat split; settle_reply.
Qed.

(** C6. Every operation returns the error of a failed transport call as
    it is. The five operations that read the answer return the error of
    the decoder as it is when the body does not decode, and the error of
    the body extraction as it is unless the status is 204. In each case
    the value next to the error is nil (false for the deletes): the
    failure is neither retried, nor wrapped, nor turned into a zero-value
    result. *)
Theorem failures_surface_the_underlying_error
    (bc : Client) (locID orderId shipmentId : Z)
    (filters : gmap string string) (shipment : Shipment) (err : error) :
  ((transport_failed bc (GetInventoryForLocation bc locID filters) err ->
    result (GetInventoryForLocation bc locID filters) = (None, Some err))
   /\ (transport_failed bc (GetOrderShipments bc orderId filters) err ->
       result (GetOrderShipments bc orderId filters) = (None, Some err))
   /\ (transport_failed bc (GetOrderShipment bc orderId shipmentId) err ->
       result (GetOrderShipment bc orderId shipmentId) = (None, Some err))
   /\ (transport_failed bc (CreateOrderShipment bc orderId shipment) err ->
       result (CreateOrderShipment bc orderId shipment) = (None, Some err))
   /\ (transport_failed bc (UpdateOrderShipment bc orderId shipment) err ->
       result (UpdateOrderShipment bc orderId shipment) = (None, Some err))
   /\ (transport_failed bc (DeleteOrderShipments bc orderId) err ->
       result (DeleteOrderShipments bc orderId) = (false, Some err))
   /\ (transport_failed bc (DeleteOrderShipment bc orderId shipmentId) err ->
       result (DeleteOrderShipment bc orderId shipmentId)
       = (false, Some err)))
  /\ (forall res,
        (answered bc (GetInventoryForLocation bc locID filters) res ->
         decode_failed json_Unmarshal_InventoryResource res err ->
         result (GetInventoryForLocation bc locID filters)
         = (None, Some err))
        /\ (answered bc (GetOrderShipments bc orderId filters) res ->
            decode_failed json_Unmarshal_Shipments res err ->
            result (GetOrderShipments bc orderId filters)
            = (None, Some err))
        /\ (answered bc (GetOrderShipment bc orderId shipmentId) res ->
            decode_failed json_Unmarshal_Shipment res err ->
            result (GetOrderShipment bc orderId shipmentId)
            = (None, Some err))
        /\ (answered bc (CreateOrderShipment bc orderId shipment) res ->
            decode_failed json_Unmarshal_Shipment res err ->
            result (CreateOrderShipment bc orderId shipment)
            = (None, Some err))
        /\ (answered bc (UpdateOrderShipment bc orderId shipment) res ->
            decode_failed json_Unmarshal_Shipment res err ->
            result (UpdateOrderShipment bc orderId shipment)
            = (None, Some err)))
  /\ (forall res,
        StatusCode res <> StatusNoContent ->
        extraction_failed res err ->
        (answered bc (GetInventoryForLocation bc locID filters) res ->
         result (GetInventoryForLocation bc locID filters)
         = (None, Some err))
        /\ (answered bc (GetOrderShipments bc orderId filters) res ->
            result (GetOrderShipments bc orderId filters)
            = (None, Some err))
        /\ (answered bc (GetOrderShipment bc orderId shipmentId) res ->
            result (GetOrderShipment bc orderId shipmentId)
            = (None, Some err))
        /\ (answered bc (CreateOrderShipment bc orderId shipment) res ->
            result (CreateOrderShipment bc orderId shipment)
            = (None, Some err))
        /\ (answered bc (UpdateOrderShipment bc orderId shipment) res ->
            result (UpdateOrderShipment bc orderId shipment)
            = (None, Some err))).
Proof.
  split; [|split].
  - repeat split; settle_reply.
  - intros res. repeat split; settle_reply.
  - intros res Hstatus Hextract.
    repeat split; revert Hstatus Hextract; settle_reply.
Qed.

(** ** The shape of what the operations return *)

Ltac split_reply :=
  run_operation;
  repeat match goal with
    | |- context [HTTPClient_Do ?bc ?req] =>
      destruct (HTTPClient_Do bc req)
    | |- context [processBody ?res] =>
      destruct (processBody res) as [? [?|]]
    | |- context [(StatusCode ?res =? StatusNoContent)%Z] =>
      destruct (StatusCode res =? StatusNoContent)%Z
    | |- context [json_Unmarshal_InventoryResource ?b] =>
      destruct (json_Unmarshal_InventoryResource b) as [? [?|]]
    | |- context [json_Unmarshal_Shipments ?b] =>
      destruct (json_Unmarshal_Shipments b) as [? [?|]]
    | |- context [json_Unmarshal_Shipment ?b] =>
      destruct (json_Unmarshal_Shipment b) as [? [?|]]
    end.

(** No operation returns a value together with an error: of the two
    components of the result, the value is nil (false for the deletes) or
    the error is nil, whatever the transport, [processBody] and the
    decoder do. *)
Theorem never_a_value_next_to_an_error
    (bc : Client) (locID orderId shipmentId : Z)
    (filters : gmap string string) (shipment : Shipment) :
  (fst (result (GetInventoryForLocation bc locID filters)) = None
   \/ snd (result (GetInventoryForLocation bc locID filters)) = None)
  /\ (fst (result (GetOrderShipments bc orderId filters)) = None
      \/ snd (result (GetOrderShipments bc orderId filters)) = None)
  /\ (fst (result (GetOrderShipment bc orderId shipmentId)) = None
      \/ snd (result (GetOrderShipment bc orderId shipmentId)) = None)
  /\ (fst (result (CreateOrderShipment bc orderId shipment)) = None
      \/ snd (result (CreateOrderShipment bc orderId shipment)) = None)
  /\ (fst (result (UpdateOrderShipment bc orderId shipment)) = None
      \/ snd (result (UpdateOrderShipment bc orderId shipment)) = None)
  /\ (fst (result (DeleteOrderShipments bc orderId)) = false
      \/ snd (result (DeleteOrderShipments bc orderId)) = None)
  /\ (fst (result (DeleteOrderShipment bc orderId shipmentId)) = false
      \/ snd (result (DeleteOrderShipment bc orderId shipmentId)) = None).
Proof.
  repeat split; split_reply; auto.
Qed.

(** [GetInventoryForLocation] returns a resource and a nil error, or nil
    and an error, never nil with a nil error; each delete returns
    [(true, nil)] or false with an error. *)
Theorem inventory_and_deletes_return_exactly_one
    (bc : Client) (locID orderId shipmentId : Z)
    (filters : gmap string string) :
  ((exists resource,
      result (GetInventoryForLocation bc locID filters)
      = (Some resource, None))
   \/ (exists err,
        result (GetInventoryForLocation bc locID filters)
        = (None, Some err)))
  /\ (result (DeleteOrderShipments bc orderId) = (true, None)
      \/ (exists err,
           result (DeleteOrderShipments bc orderId) = (false, Some err)))
  /\ (result (DeleteOrderShipment bc orderId shipmentId) = (true, None)
      \/ (exists err,
           result (DeleteOrderShipment bc orderId shipmentId)
           = (false, Some err))).
Proof.
  repeat split; split_reply; eauto.
Qed.

(** When the transport answered, the body was extracted and the decoder
    accepted it, an operation returns what the decoder left in its
    variable with a nil error: [GetInventoryForLocation] the address of
    the resource, [GetOrderShipments] the slice, and [GetOrderShipment],
    [CreateOrderShipment] and [UpdateOrderShipment] the pointer, which is
    nil when the decoder left it nil. What create and update return does
    not depend on the shipment passed in. *)
Theorem decoded_value_is_returned
    (bc : Client) (locID orderId shipmentId : Z)
    (filters : gmap string string) (shipment : Shipment) (res : Response) :
  (forall resource,
     answered bc (GetInventoryForLocation bc locID filters) res ->
     decoded json_Unmarshal_InventoryResource res resource ->
     result (GetInventoryForLocation bc locID filters)
     = (Some resource, None))
  /\ (forall shipments,
        answered bc (GetOrderShipments bc orderId filters) res ->
        decoded json_Unmarshal_Shipments res shipments ->
        result (GetOrderShipments bc orderId filters) = (shipments, None))
  /\ (forall s,
        decoded json_Unmarshal_Shipment res s ->
        (answered bc (GetOrderShipment bc orderId shipmentId) res ->
         result (GetOrderShipment bc orderId shipmentId) = (s, None))
        /\ (answered bc (CreateOrderShipment bc orderId shipment) res ->
            result (CreateOrderShipment bc orderId shipment) = (s, None))
        /\ (answered bc (UpdateOrderShipment bc orderId shipment) res ->
            result (UpdateOrderShipment bc orderId shipment) = (s, None))).
Proof.
  unfold decoded.
  split; [|split].
  - settle_reply.
  - settle_reply.
  - intros s Hdecoded. repeat split; revert Hdecoded; settle_reply.
Qed.

(** The five operations that read the answer look at its status only
    after the body extraction failed, and then only to tell 204 from the
    rest. Two answers on which [processBody] returns the same give the
    same result: when the extraction succeeded whatever their statuses
    are, 204 included, and when it failed provided they are both 204 or
    both not 204. *)
Theorem status_is_only_compared_with_204
    (bc bc' : Client) (locID orderId shipmentId : Z)
    (filters : gmap string string) (shipment : Shipment)
    (res res' : Response) :
  processBody res = processBody res' ->
  (forall body err,
     processBody res = (body, Some err) ->
     (StatusCode res =? StatusNoContent)%Z
     = (StatusCode res' =? StatusNoContent)%Z) ->
  (answered bc (GetInventoryForLocation bc locID filters) res ->
   answered bc' (GetInventoryForLocation bc' locID filters) res' ->
   result (GetInventoryForLocation bc locID filters)
   = result (GetInventoryForLocation bc' locID filters))
  /\ (answered bc (GetOrderShipments bc orderId filters) res ->
      answered bc' (GetOrderShipments bc' orderId filters) res' ->
      result (GetOrderShipments bc orderId filters)
      = result (GetOrderShipments bc' orderId filters))
  /\ (answered bc (GetOrderShipment bc orderId shipmentId) res ->
      answered bc' (GetOrderShipment bc' orderId shipmentId) res' ->
      result (GetOrderShipment bc orderId shipmentId)
      = result (GetOrderShipment bc' orderId shipmentId))
  /\ (answered bc (CreateOrderShipment bc orderId shipment) res ->
      answered bc' (CreateOrderShipment bc' orderId shipment) res' ->
      result (CreateOrderShipment bc orderId shipment)
      = result (CreateOrderShipment bc' orderId shipment))
  /\ (answered bc (UpdateOrderShipment bc orderId shipment) res ->
      answered bc' (UpdateOrderShipment bc' orderId shipment) res' ->
      result (UpdateOrderShipment bc orderId shipment)
      = result (UpdateOrderShipment bc' orderId shipment)).
Proof.
  intros Hbody Hstatus.
  repeat split; unfold answered; run_operation;
    intros (req & Hreq & Hdo) (req' & Hreq' & Hdo');
    apply one_request in Hreq; apply one_request in Hreq'; subst req req';
    rewrite Hdo, Hdo', <- Hbody;
    (destruct (processBody res) as [body [err|]] eqn:Hextract;
     [rewrite (Hstatus body err eq_refl)|]; reflexivity).
Qed.

(** ** URLs read back *)

Lemma occurs_app (c : ascii) (s1 s2 : string) :
  occurs c (s1 +:+ s2) = occurs c s1 || occurs c s2.
Proof.
  induction s1 as [|a s1 IH]; [done|].
  change (Ascii.eqb a c || occurs c (s1 +:+ s2)
          = Ascii.eqb a c || occurs c s1 || occurs c s2).
  rewrite IH. by destruct (Ascii.eqb a c).
Qed.

Lemma occurs_join (c : ascii) (elems : list string) (sep : string) :
  occurs c sep = false ->
  Forall (fun e => occurs c e = false) elems ->
  occurs c (strings_Join elems sep) = false.
Proof.
  intros Hsep Helems.
  induction Helems as [|e elems He Helems IH]; [done|].
  destruct elems as [|e' elems]; [done|].
  change (occurs c (e +:+ sep +:+ strings_Join (e' :: elems) sep) = false).
  by rewrite !occurs_app, He, Hsep, IH.
Qed.

(** The numeral of an integer is made of digits and at most a sign. *)
Lemma uint_digits (c : ascii) (u : Decimal.uint) :
  occurs c (NilEmpty.string_of_uint u) = true -> occurs c "0123456789" = true.
Proof.
  induction u as [|u IH|u IH|u IH|u IH|u IH|u IH|u IH|u IH|u IH|u IH];
    cbn [NilEmpty.string_of_uint occurs]; intros Hc;
    [done|..];
    (apply orb_prop in Hc as [Hc|Hc]; [|by apply IH]);
    apply Ascii.eqb_eq in Hc; by subst c.
Qed.

Lemma fmt_d_digits (c : ascii) (n : Z) :
  occurs c (fmt_d n) = true -> occurs c "-0123456789" = true.
Proof.
  assert (Hsign : occurs c "-0123456789"
                  = Ascii.eqb "-" c || occurs c "0123456789") by reflexivity.
  assert (Hu : forall u, occurs c (NilZero.string_of_uint u) = true ->
                         occurs c "0123456789" = true).
  { intros u. destruct u; try apply uint_digits.
    change (NilZero.string_of_uint Decimal.Nil) with "0".
    change (occurs c "0") with (Ascii.eqb "0" c || false).
    intros Hc. apply orb_prop in Hc as [Hc|Hc]; [|done].
    apply Ascii.eqb_eq in Hc. by subst c. }
  unfold fmt_d. destruct (Z.to_int n) as [u|u].
  - change (NilZero.string_of_int (Decimal.Pos u))
      with (NilZero.string_of_uint u).
    intros Hc. rewrite Hsign, (Hu u Hc). apply orb_true_r.
  - change (occurs c (NilZero.string_of_int (Decimal.Neg u)))
      with (Ascii.eqb "-" c || occurs c (NilZero.string_of_uint u)).
    intros Hc. rewrite Hsign.
    apply orb_prop in Hc as [Hc|Hc]; [by rewrite Hc|].
    rewrite (Hu u Hc). apply orb_true_r.
Qed.

Lemma fmt_d_no_slash (n : Z) : occurs "/" (fmt_d n) = false.
Proof.
  destruct (occurs "/" (fmt_d n)) eqn:Hc; [|done].
  apply fmt_d_digits in Hc. discriminate Hc.
Qed.

Lemma fmt_d_no_question_mark (n : Z) : occurs "?" (fmt_d n) = false.
Proof.
  destruct (occurs "?" (fmt_d n)) eqn:Hc; [|done].
  apply fmt_d_digits in Hc. discriminate Hc.
Qed.

(** Different integers have different numerals. *)
Lemma fmt_d_inj (n m : Z) : fmt_d n = fmt_d m -> n = m.
Proof.
  intros Heq.
  assert (Hnonnil : forall z, Z.to_int z <> Decimal.Pos Decimal.Nil
                              /\ Z.to_int z <> Decimal.Neg Decimal.Nil).
  { intros [|p|p]; split; cbn; try discriminate;
      intros Hp; injection Hp as Hp;
      by apply Unsigned.to_uint_nonnil in Hp. }
  assert (Hint : Some (Z.to_int n) = Some (Z.to_int m)).
  { destruct (Hnonnil n) as [Hn1 Hn2], (Hnonnil m) as [Hm1 Hm2].
    rewrite <- (NilZero.isi _ Hn1 Hn2), <- (NilZero.isi _ Hm1 Hm2).
    unfold fmt_d in Heq. by rewrite Heq. }
  injection Hint as Hint.
  by rewrite <- (DecimalZ.of_to n), <- (DecimalZ.of_to m), Hint.
Qed.

(** Two texts free of [sep], each followed by [sep] and a rest, are equal
    only piece by piece. *)
Lemma app_sep_inj (sep : ascii) (a a' rest rest' : string) :
  occurs sep a = false -> occurs sep a' = false ->
  a +:+ String sep rest = a' +:+ String sep rest' ->
  a = a' /\ rest = rest'.
Proof.
  revert a'.
  induction a as [|c a IH]; intros [|c' a'] Ha Ha' Heq.
  - by injection Heq as ->.
  - injection Heq as Hc _. subst c'.
    cbn in Ha'. by rewrite Ascii.eqb_refl in Ha'.
  - injection Heq as Hc _. subst c.
    cbn in Ha. by rewrite Ascii.eqb_refl in Ha.
  - injection Heq as Hc Heq. subst c'.
    cbn in Ha, Ha'.
    apply orb_false_elim in Ha as [_ Ha].
    apply orb_false_elim in Ha' as [_ Ha'].
    destruct (IH a' Ha Ha' Heq) as [-> ->]. done.
Qed.

Lemma split_on_absent (sep : ascii) (s : string) :
  occurs sep s = false -> split_on sep s = [s].
Proof.
  induction s as [|a s IH]; [done|].
  cbn. intros Hs. apply orb_false_elim in Hs as [Ha Hs].
  by rewrite Ha, (IH Hs).
Qed.

Lemma split_on_app (sep : ascii) (s rest : string) :
  occurs sep s = false ->
  split_on sep (s +:+ String sep rest) = s :: split_on sep rest.
Proof.
  induction s as [|a s IH].
  - intros _. change (split_on sep (String sep rest) = "" :: split_on sep rest).
    cbn. by rewrite Ascii.eqb_refl.
  - cbn [occurs]. intros Hs. apply orb_false_elim in Hs as [Ha Hs].
    change (split_on sep (String a (s +:+ String sep rest))
            = String a s :: split_on sep rest).
    cbn [split_on]. by rewrite Ha, (IH Hs).
Qed.

(** Splitting what [strings.Join] built gives the elements back, when
    none of them holds the separator. *)
Lemma split_on_Join (sep : ascii) (elems : list string) :
  elems <> [] ->
  Forall (fun e => occurs sep e = false) elems ->
  split_on sep (strings_Join elems (String sep "")) = elems.
Proof.
  intros Hne Helems.
  induction Helems as [|e elems He Helems IH]; [done|].
  destruct elems as [|e' elems].
  - by apply split_on_absent.
  - change (split_on sep
              (e +:+ String sep (strings_Join (e' :: elems) (String sep "")))
            = e :: e' :: elems).
    rewrite (split_on_app _ _ _ He). f_equal. by apply IH.
Qed.

Lemma cut_app (sep : ascii) (k v : string) :
  occurs sep k = false -> cut sep (k +:+ String sep v) = (k, v).
Proof.
  induction k as [|a k IH].
  - intros _. change (cut sep (String sep v) = ("", v)).
    cbn. by rewrite Ascii.eqb_refl.
  - cbn [occurs]. intros Hk. apply orb_false_elim in Hk as [Ha Hk].
    change (cut sep (String a (k +:+ String sep v)) = (String a k, v)).
    cbn [cut]. by rewrite Ha, (IH Hk).
Qed.

Lemma split_query_segments (entries : list (string * string)) :
  Forall readable entries ->
  split_query (strings_Join (List.map segment entries) "&") = entries.
Proof.
  intros Hentries. unfold split_query.
  destruct entries as [|kv entries]; [done|].
  rewrite split_on_Join.
  - induction Hentries as [|[k v] rest (Hk1 & Hk2 & Hv) Hrest IH]; [done|].
    cbn [List.map List.filter].
    replace (negb (String.eqb (segment (k, v)) "")) with true
      by (unfold segment; by destruct k).
    cbn [List.map]. f_equal; [|exact IH].
    by apply cut_app.
  - done.
  - apply List.Forall_map.
    eapply List.Forall_impl; [|exact Hentries].
    intros [k v] (Hk1 & _ & Hv). unfold segment.
    by rewrite !occurs_app, Hk1, Hv.
Qed.

Lemma range_order_entries (m : gmap string string) (k v : string) :
  (k, v) ∈ range_order m <-> m !! k = Some v.
Proof. by rewrite (range_order_perm m), elem_of_map_to_list. Qed.

Lemma query_pieces_segments (entries : list (string * string)) :
  Forall (fun kv => occurs "&" (fst kv) = false /\ occurs "&" (snd kv) = false)
    entries ->
  query_pieces (strings_Join (List.map segment entries) "&")
  = List.map segment entries.
Proof.
  intros Hentries. unfold query_pieces.
  destruct entries as [|kv entries]; [done|].
  rewrite split_on_Join.
  - clear Hentries. generalize (kv :: entries). intros l.
    induction l as [|[k v] l IH]; [done|].
    cbn [List.map List.filter].
    replace (negb (String.eqb (segment (k, v)) "")) with true
      by (unfold segment; by destruct k).
    by rewrite IH.
  - done.
  - apply List.Forall_map.
    eapply List.Forall_impl; [|exact Hentries].
    intros [k v] [Hk Hv]. unfold segment.
    by rewrite !occurs_app, Hk, Hv.
Qed.

(** C5, as amended. For a filter mapping with N entries none of whose
    keys and values holds [&], the query that [GetInventoryForLocation]
    and [GetOrderShipments] build is made of exactly N segments joined by
    [&]: it is the [&]-join of N texts [key=value], one for each entry of
    the mapping with the key and the value copied as they are, and read
    back, its pieces between [&] are these N texts, each entry once, in
    the order the map is visited. *)
Theorem query_has_exactly_one_segment_per_entry
    (bc : Client) (locID orderId : Z) (filters : gmap string string) :
  (forall k v, filters !! k = Some v ->
               occurs "&" k = false /\ occurs "&" v = false) ->
  exists segments : list string,
    length segments = size filters
    /\ segments ≡ₚ List.map segment (map_to_list filters)
    /\ sent (GetInventoryForLocation bc locID filters)
       = [ getAPIRequest MethodGet
             (("/v3/inventory/locations/" +:+ fmt_d locID +:+ "/items")
              +:+ strings_Join segments "&") None ]
    /\ sent (GetOrderShipments bc orderId filters)
       = [ getAPIRequest MethodGet
             ("/v2/orders/" +:+ fmt_d orderId +:+ "/shipments?"
              +:+ strings_Join segments "&") None ]
    /\ query_pieces (strings_Join segments "&") = segments
    /\ exactly_one_segment_per_entry (strings_Join segments "&") filters.
Proof.
  intros Hfilters.
  exists (List.map segment (range_order filters)).
  assert (Hlength : length (List.map segment (range_order filters))
                    = size filters)
    by (by rewrite length_map, range_order_length).
  assert (Hperm : List.map segment (range_order filters)
                  ≡ₚ List.map segment (map_to_list filters))
    by apply Permutation_map, range_order_perm.
  assert (Hpieces :
    query_pieces (strings_Join (List.map segment (range_order filters)) "&")
    = List.map segment (range_order filters)).
  { apply query_pieces_segments, List.Forall_forall.
    intros [k v] Hin. apply list_elem_of_In, range_order_entries in Hin.
    by apply Hfilters. }
  split; [exact Hlength|]. split; [exact Hperm|].
  split; [run_operation; by rewrite filter_params_segments|].
  split; [run_operation; by rewrite filter_params_segments|].
  split; [exact Hpieces|].
  unfold exactly_one_segment_per_entry. by rewrite Hpieces.
Qed.

Lemma one_element {A} (a b : A) : [a] = [b] -> a = b.
Proof. congruence. Qed.

Lemma shipment_path_inj (o s o' s' : Z) :
  "/v2/orders/" +:+ fmt_d o +:+ "/shipments/" +:+ fmt_d s
  = "/v2/orders/" +:+ fmt_d o' +:+ "/shipments/" +:+ fmt_d s' ->
  o = o' /\ s = s'.
Proof.
  intros Heq. apply String.app_inj in Heq.
  change (fmt_d o +:+ String "/" ("shipments/" +:+ fmt_d s)
          = fmt_d o' +:+ String "/" ("shipments/" +:+ fmt_d s')) in Heq.
  apply app_sep_inj in Heq as [Ho Hs]; try apply fmt_d_no_slash.
  apply String.app_inj in Hs.
  split; by apply fmt_d_inj.
Qed.

Lemma collection_path_inj (o o' : Z) :
  "/v2/orders/" +:+ fmt_d o +:+ "/shipments"
  = "/v2/orders/" +:+ fmt_d o' +:+ "/shipments" ->
  o = o'.
Proof.
  intros Heq. apply String.app_inj in Heq.
  change (fmt_d o +:+ String "/" "shipments"
          = fmt_d o' +:+ String "/" "shipments") in Heq.
  apply app_sep_inj in Heq as [Ho _]; try apply fmt_d_no_slash.
  by apply fmt_d_inj.
Qed.

Lemma collection_path_is_no_shipment_path (o o' s' : Z) :
  "/v2/orders/" +:+ fmt_d o +:+ "/shipments"
  <> "/v2/orders/" +:+ fmt_d o' +:+ "/shipments/" +:+ fmt_d s'.
Proof.
  intros Heq. apply String.app_inj in Heq.
  change (fmt_d o +:+ String "/" "shipments"
          = fmt_d o' +:+ String "/" ("shipments/" +:+ fmt_d s')) in Heq.
  apply app_sep_inj in Heq as [_ Hs]; try apply fmt_d_no_slash.
  change ("shipments" +:+ "" = "shipments" +:+ String "/" (fmt_d s')) in Hs.
  apply String.app_inj in Hs. discriminate Hs.
Qed.

(** The path of a request tells which order and which shipment it is
    about: two calls of [GetOrderShipment], of [DeleteOrderShipment] or of
    [UpdateOrderShipment] with the same URL have the same order id and the
    same shipment id, two calls of [DeleteOrderShipments] with the same
    URL the same order id, and the URL of [DeleteOrderShipments] is never
    the URL of a [DeleteOrderShipment], whatever the ids are. *)
Theorem paths_determine_the_ids
    (bc bc' : Client) (orderId orderId' shipmentId shipmentId' : Z)
    (shipment shipment' : Shipment) :
  (List.map URL (sent (GetOrderShipment bc orderId shipmentId))
   = List.map URL (sent (GetOrderShipment bc' orderId' shipmentId')) ->
   orderId = orderId' /\ shipmentId = shipmentId')
  /\ (List.map URL (sent (DeleteOrderShipment bc orderId shipmentId))
      = List.map URL (sent (DeleteOrderShipment bc' orderId' shipmentId')) ->
      orderId = orderId' /\ shipmentId = shipmentId')
  /\ (List.map URL (sent (UpdateOrderShipment bc orderId shipment))
      = List.map URL (sent (UpdateOrderShipment bc' orderId' shipment')) ->
      orderId = orderId' /\ ID shipment = ID shipment')
  /\ (List.map URL (sent (DeleteOrderShipments bc orderId))
      = List.map URL (sent (DeleteOrderShipments bc' orderId')) ->
      orderId = orderId')
  /\ List.map URL (sent (DeleteOrderShipments bc orderId))
     <> List.map URL (sent (DeleteOrderShipment bc' orderId' shipmentId')).
Proof.
  split; [|split; [|split; [|split]]]; run_operation; cbn [List.map URL];
    intros Heq; apply one_element in Heq.
  - by apply shipment_path_inj.
  - by apply shipment_path_inj.
  - by apply shipment_path_inj.
  - by apply collection_path_inj.
  - by apply collection_path_is_no_shipment_path in Heq.
Qed.

(** One shipment has one address: [GetOrderShipment], [DeleteOrderShipment]
    and [UpdateOrderShipment] of a shipment with that id request the same
    URL with GET, DELETE and PUT, and [CreateOrderShipment] requests with
    POST the URL that [DeleteOrderShipments] requests with DELETE. Only
    the create and the update carry a body. *)
Theorem one_shipment_one_address
    (bc : Client) (orderId shipmentId : Z) (shipment : Shipment) :
  ID shipment = shipmentId ->
  sent (GetOrderShipment bc orderId shipmentId)
  = [ {| Method := "GET";
         URL := "/v2/orders/" +:+ fmt_d orderId +:+ "/shipments/"
                +:+ fmt_d shipmentId;
         Body := None |} ]
  /\ sent (DeleteOrderShipment bc orderId shipmentId)
     = [ {| Method := "DELETE";
            URL := "/v2/orders/" +:+ fmt_d orderId +:+ "/shipments/"
                   +:+ fmt_d shipmentId;
            Body := None |} ]
  /\ List.map (fun req => (Method req, URL req))
       (sent (UpdateOrderShipment bc orderId shipment))
     = [ ("PUT", "/v2/orders/" +:+ fmt_d orderId +:+ "/shipments/"
                 +:+ fmt_d shipmentId) ]
  /\ sent (DeleteOrderShipments bc orderId)
     = [ {| Method := "DELETE";
            URL := "/v2/orders/" +:+ fmt_d orderId +:+ "/shipments";
            Body := None |} ]
  /\ List.map (fun req => (Method req, URL req))
       (sent (CreateOrderShipment bc orderId shipment))
     = [ ("POST", "/v2/orders/" +:+ fmt_d orderId +:+ "/shipments") ].
Proof.
  intros <-. repeat split.
Qed.

(** [GetInventoryForLocation] puts a [?] in its URL only if a filter key
    or value holds one: with filters free of [?] the URL has no query
    part. The URL of [GetOrderShipments] always has a [?]. *)
Theorem inventory_url_has_no_question_mark_of_its_own
    (bc : Client) (locID orderId : Z) (filters : gmap string string) :
  (forall k v, filters !! k = Some v ->
               occurs "?" k = false /\ occurs "?" v = false) ->
  Forall (fun req => occurs "?" (URL req) = false)
    (sent (GetInventoryForLocation bc locID filters))
  /\ Forall (fun req => occurs "?" (URL req) = true)
       (sent (GetOrderShipments bc orderId filters)).
Proof.
  intros Hfilters. split; run_operation;
    (apply List.Forall_cons; [|apply List.Forall_nil]); cbn [URL getAPIRequest].
  - rewrite filter_params_segments, !occurs_app, fmt_d_no_question_mark.
    rewrite occurs_join; [done|done|].
    apply List.Forall_map, List.Forall_forall.
    intros [k v] Hin. apply list_elem_of_In, range_order_entries in Hin.
    destruct (Hfilters k v Hin) as [Hk Hv].
    unfold segment. cbn [fst snd]. by rewrite !occurs_app, Hk, Hv.
  - rewrite !occurs_app.
    replace (occurs "?" "/shipments?") with true by reflexivity.
    by rewrite !orb_true_r.
Qed.

(** When no filter key holds [&] or [=] and no filter value holds [&],
    the query that [GetOrderShipments] and [GetInventoryForLocation] build
    reads back as the filters: splitting it at [&] and each piece at its
    first [=] gives the entries of the mapping, each once. *)
Theorem query_reads_back_as_the_filters
    (bc : Client) (locID orderId : Z) (filters : gmap string string) :
  (forall k v, filters !! k = Some v -> readable (k, v)) ->
  exists query,
    sent (GetOrderShipments bc orderId filters)
    = [ getAPIRequest MethodGet
          ("/v2/orders/" +:+ fmt_d orderId +:+ "/shipments?" +:+ query)
          None ]
    /\ sent (GetInventoryForLocation bc locID filters)
       = [ getAPIRequest MethodGet
             (("/v3/inventory/locations/" +:+ fmt_d locID +:+ "/items")
              +:+ query) None ]
    /\ split_query query ≡ₚ map_to_list filters
    /\ list_to_map (split_query query) = filters.
Proof.
  intros Hfilters.
  exists (strings_Join (List.map segment (range_order filters)) "&").
  assert (Hback : split_query
                    (strings_Join (List.map segment (range_order filters)) "&")
                  = range_order filters).
  { apply split_query_segments, List.Forall_forall.
    intros [k v] Hin. apply list_elem_of_In, range_order_entries in Hin.
    by apply Hfilters. }
  split; [|split; [|split]].
  - run_operation. by rewrite filter_params_segments.
  - run_operation. by rewrite filter_params_segments.
  - rewrite Hback. apply range_order_perm.
  - rewrite Hback. symmetry. apply list_to_map_flip.
    symmetry. apply range_order_perm.
Qed.

(** Keys and values are copied without escaping: the single filter whose
    value is [v&k'=v'] gives the very request that the two filters
    [k = v] and [k' = v'], visited in this order, give. *)
Theorem separators_in_a_value_read_as_a_second_filter
    (bc : Client) (locID orderId : Z) (k v k' v' : string) :
  range_order (<[ k := v ]> {[ k' := v' ]}) = [ (k, v); (k', v') ] ->
  sent (GetOrderShipments bc orderId
          {[ k := v +:+ "&" +:+ k' +:+ "=" +:+ v' ]})
  = sent (GetOrderShipments bc orderId (<[ k := v ]> {[ k' := v' ]}))
  /\ sent (GetInventoryForLocation bc locID
             {[ k := v +:+ "&" +:+ k' +:+ "=" +:+ v' ]})
     = sent (GetInventoryForLocation bc locID (<[ k := v ]> {[ k' := v' ]})).
Proof.
  intros Horder.
  assert (Hquery :
    strings_Join
      (filter_params
         (range_order {[ k := v +:+ "&" +:+ k' +:+ "=" +:+ v' ]})) "&"
    = strings_Join
        (filter_params (range_order (<[ k := v ]> {[ k' := v' ]}))) "&").
  { rewrite range_order_singleton, Horder, !filter_params_segments.
    unfold segment. cbn [List.map strings_Join fst snd].
    by rewrite <- !append_assoc. }
  split; run_operation; by rewrite Hquery.
Qed.

(** What is not on the allow-list has no part in a write: two shipments
    with the same orderAddressId, trackingNumber, shippingMethod, comments,
    shippingProvider, trackingCarrier and items give the same
    [CreateOrderShipment] call, request and result, and if their ids are
    the same also the same [UpdateOrderShipment] call. *)
Theorem only_the_allow_list_reaches_the_server
    (bc : Client) (orderId : Z) (s s' : Shipment) :
  OrderAddressId s = OrderAddressId s' ->
  TrackingNumber s = TrackingNumber s' ->
  ShippingMethod s = ShippingMethod s' ->
  Comments s = Comments s' ->
  ShippingProvider s = ShippingProvider s' ->
  TrackingCarrier s = TrackingCarrier s' ->
  Items s = Items s' ->
  CreateOrderShipment bc orderId s = CreateOrderShipment bc orderId s'
  /\ (ID s = ID s' ->
      UpdateOrderShipment bc orderId s = UpdateOrderShipment bc orderId s').
Proof.
  intros Haddress Htracking Hmethod Hcomments Hprovider Hcarrier Hitems.
  assert (Hsame : allowed_fields s = allowed_fields s').
  { unfold allowed_fields.
    by rewrite Haddress, Htracking, Hmethod, Hcomments, Hprovider,
      Hcarrier, Hitems. }
  split.
  - unfold CreateOrderShipment. by rewrite Hsame.
  - intros Hid. unfold UpdateOrderShipment. by rewrite Hsame, Hid.
Qed.

End Operations.

(** ** The properties at concrete inputs

    The operations run with the stand-ins: [processBody_spec], the decoder
    [unmarshal_null] and the visiting order [range_sorted]. *)

Lemma range_sorted_perm (m : gmap string string) :
  range_sorted m ≡ₚ map_to_list m.
Proof. reflexivity. Defined.

(** A 204 answer to each of the five operations. *)
Lemma no_content_yields_zero_value_witness :
  StatusCode {| StatusCode := 204; Response_Body := inl "" |} = StatusNoContent
  /\ extraction_failed processBody_spec
       {| StatusCode := 204; Response_Body := inl "" |} ErrNoContent
  /\ result (GetInventoryForLocation processBody_spec
               (unmarshal_null zero_InventoryResource) range_sorted
               (client_answering 204 (inl "")) 42 ∅)
     = (Some zero_InventoryResource, None)
  /\ result (GetOrderShipments processBody_spec (unmarshal_null None)
               range_sorted (client_answering 204 (inl "")) 55 ∅)
     = (Some [], None)
  /\ result (GetOrderShipment processBody_spec (unmarshal_null None)
               (client_answering 204 (inl "")) 55 7)
     = (Some zero_Shipment, None)
  /\ result (CreateOrderShipment processBody_spec (unmarshal_null None)
               (client_answering 204 (inl "")) 55 zero_Shipment)
     = (Some zero_Shipment, None)
  /\ result (UpdateOrderShipment processBody_spec (unmarshal_null None)
               (client_answering 204 (inl "")) 55 zero_Shipment)
     = (Some zero_Shipment, None).
Proof.
  assert (Hstatus : StatusCode {| StatusCode := 204; Response_Body := inl "" |}
                    = StatusNoContent) by reflexivity.
  assert (Hextract : extraction_failed processBody_spec
                       {| StatusCode := 204; Response_Body := inl "" |}
                       ErrNoContent) by (exists ""; reflexivity).
  destruct (no_content_yields_zero_value_and_nil_error
              processBody_spec (unmarshal_null zero_InventoryResource)
              (unmarshal_null None) (unmarshal_null None) range_sorted
              (client_answering 204 (inl "")) 42 55 7 ∅ zero_Shipment
              _ ErrNoContent Hstatus Hextract)
    as (Hinv & Hlist & Hget & Hcreate & Hupdate).
  split; [exact Hstatus|]. split; [exact Hextract|].
  split; [apply Hinv|split; [apply Hlist|split; [apply Hget|
    split; [apply Hcreate|apply Hupdate]]]];
    (eexists; split; reflexivity).
Defined.

(** Deleting shipment 99 of order 7, and all shipments of order 7, on a
    server that answers 404. *)
Lemma delete_succeeds_on_404_witness :
  answered (client_answering 404 (inl "Not Found"))
    (DeleteOrderShipments (client_answering 404 (inl "Not Found")) 7)
    {| StatusCode := 404; Response_Body := inl "Not Found" |}
  /\ answered (client_answering 404 (inl "Not Found"))
       (DeleteOrderShipment (client_answering 404 (inl "Not Found")) 7 99)
       {| StatusCode := 404; Response_Body := inl "Not Found" |}
  /\ result (DeleteOrderShipments (client_answering 404 (inl "Not Found")) 7)
     = (true, None)
  /\ result (DeleteOrderShipment (client_answering 404 (inl "Not Found")) 7 99)
     = (true, None).
Proof.
  destruct (delete_succeeds_whatever_the_status
              (client_answering 404 (inl "Not Found")) 7 99
              {| StatusCode := 404; Response_Body := inl "Not Found" |})
    as (Hall & Hone & _).
  assert (Ha : answered (client_answering 404 (inl "Not Found"))
                 (DeleteOrderShipments
                    (client_answering 404 (inl "Not Found")) 7)
                 {| StatusCode := 404; Response_Body := inl "Not Found" |})
    by (eexists; split; reflexivity).
  assert (Hb : answered (client_answering 404 (inl "Not Found"))
                 (DeleteOrderShipment
                    (client_answering 404 (inl "Not Found")) 7 99)
                 {| StatusCode := 404; Response_Body := inl "Not Found" |})
    by (eexists; split; reflexivity).
  split; [exact Ha|]. split; [exact Hb|].
  split; [exact (Hall Ha)|exact (Hone Hb)].
Defined.

(** The inventory of location 42 filtered by [sku.in = A,B]. *)
Lemma inventory_url_witness :
  (forall m, range_sorted m ≡ₚ map_to_list m)
  /\ sent (GetInventoryForLocation processBody_spec
             (unmarshal_null zero_InventoryResource) range_sorted
             (client_answering 200 (inl "null")) 42 {[ "sku.in" := "A,B" ]})
     = [ {| Method := "GET";
            URL := "/v3/inventory/locations/42/itemssku.in=A,B";
            Body := None |} ].
Proof.
  split; [exact range_sorted_perm|].
  exact (proj1 (inventory_url_appends_filters_directly
                  processBody_spec (unmarshal_null zero_InventoryResource)
                  range_sorted range_sorted_perm
                  (client_answering 200 (inl "null")) 42
                  {[ "sku.in" := "A,B" ]})).
Defined.

(** A refused connection, a body that is not JSON on a 200 answer, and a
    body stream that breaks off on a 200 answer. *)
Lemma failures_surface_witness :
  (transport_failed (client_failing "connection refused")
     (DeleteOrderShipment (client_failing "connection refused") 7 99)
     "connection refused"
   /\ result (DeleteOrderShipment (client_failing "connection refused") 7 99)
      = (false, Some "connection refused"))
  /\ (answered (client_answering 200 (inl "{"))
        (GetOrderShipment processBody_spec (unmarshal_null None)
           (client_answering 200 (inl "{")) 55 7)
        {| StatusCode := 200; Response_Body := inl "{" |}
      /\ decode_failed processBody_spec (unmarshal_null (None : option Shipment))
           {| StatusCode := 200; Response_Body := inl "{" |}
           "invalid character looking for beginning of value"
      /\ result (GetOrderShipment processBody_spec (unmarshal_null None)
                   (client_answering 200 (inl "{")) 55 7)
         = (None, Some "invalid character looking for beginning of value"))
  /\ (StatusCode {| StatusCode := 200; Response_Body := inr "unexpected EOF" |}
      <> StatusNoContent
      /\ extraction_failed processBody_spec
           {| StatusCode := 200; Response_Body := inr "unexpected EOF" |}
           "unexpected EOF"
      /\ result (CreateOrderShipment processBody_spec (unmarshal_null None)
                   (client_answering 200 (inr "unexpected EOF")) 55
                   zero_Shipment)
         = (None, Some "unexpected EOF")).
Proof.
  split; [|split].
  - assert (Hfail : transport_failed (client_failing "connection refused")
                      (DeleteOrderShipment
                         (client_failing "connection refused") 7 99)
                      "connection refused")
      by (eexists; split; reflexivity).
    split; [exact Hfail|].
    destruct (failures_surface_the_underlying_error
                processBody_spec (unmarshal_null zero_InventoryResource)
                (unmarshal_null None) (unmarshal_null None) range_sorted
                (client_failing "connection refused") 42 7 99 ∅ zero_Shipment
                "connection refused")
      as ((_ & _ & _ & _ & _ & _ & Hdelete) & _).
    exact (Hdelete Hfail).
  - assert (Hanswer : answered (client_answering 200 (inl "{"))
                        (GetOrderShipment processBody_spec (unmarshal_null None)
                           (client_answering 200 (inl "{")) 55 7)
                        {| StatusCode := 200; Response_Body := inl "{" |})
      by (eexists; split; reflexivity).
    assert (Hdecode : decode_failed processBody_spec
                        (unmarshal_null (None : option Shipment))
                        {| StatusCode := 200; Response_Body := inl "{" |}
                        "invalid character looking for beginning of value")
      by (exists "{", None; split; reflexivity).
    split; [exact Hanswer|]. split; [exact Hdecode|].
    destruct (failures_surface_the_underlying_error
                processBody_spec (unmarshal_null zero_InventoryResource)
                (unmarshal_null None) (unmarshal_null None) range_sorted
                (client_answering 200 (inl "{")) 42 55 7 ∅ zero_Shipment
                "invalid character looking for beginning of value")
      as (_ & Hdec & _).
    destruct (Hdec {| StatusCode := 200; Response_Body := inl "{" |})
      as (_ & _ & Hget & _).
    exact (Hget Hanswer Hdecode).
  - assert (Hstatus : StatusCode {| StatusCode := 200;
                                    Response_Body := inr "unexpected EOF" |}
                      <> StatusNoContent) by (intros Heq; discriminate Heq).
    assert (Hextract : extraction_failed processBody_spec
                         {| StatusCode := 200;
                            Response_Body := inr "unexpected EOF" |}
                         "unexpected EOF") by (exists ""; reflexivity).
    split; [exact Hstatus|]. split; [exact Hextract|].
    destruct (failures_surface_the_underlying_error
                processBody_spec (unmarshal_null zero_InventoryResource)
                (unmarshal_null None) (unmarshal_null None) range_sorted
                (client_answering 200 (inr "unexpected EOF")) 42 55 7 ∅
                zero_Shipment "unexpected EOF")
      as (_ & _ & Hext).
    destruct (Hext _ Hstatus Hextract) as (_ & _ & _ & Hcreate & _).
    apply Hcreate. eexists; split; reflexivity.
Defined.

(** No filters: the two separator conventions side by side. *)
Lemma empty_filters_witness :
  (forall m, range_sorted m ≡ₚ map_to_list m)
  /\ sent (GetOrderShipments processBody_spec (unmarshal_null None)
             range_sorted (client_answering 200 (inl "null")) 55 ∅)
     = [ {| Method := "GET"; URL := "/v2/orders/55/shipments?";
            Body := None |} ]
  /\ sent (GetInventoryForLocation processBody_spec
             (unmarshal_null zero_InventoryResource) range_sorted
             (client_answering 200 (inl "null")) 42 ∅)
     = [ {| Method := "GET"; URL := "/v3/inventory/locations/42/items";
            Body := None |} ].
Proof.
  split; [exact range_sorted_perm|].
  destruct (empty_filters_separator_conventions
              processBody_spec (unmarshal_null zero_InventoryResource)
              (unmarshal_null None) range_sorted range_sorted_perm
              (client_answering 200 (inl "null")) 42 55 ∅)
    as (Hshipments & _ & Hinventory).
  split; [exact Hshipments|exact Hinventory].
Defined.

(** Updating a shipment whose id was left at zero. *)
Lemma update_with_zero_id_witness :
  ID zero_Shipment = 0
  /\ List.map (fun req => (Method req, URL req))
       (sent (UpdateOrderShipment processBody_spec (unmarshal_null None)
                (client_answering 200 (inl "null")) 55 zero_Shipment))
     = [ ("PUT", "/v2/orders/55/shipments/0") ].
Proof.
  split; [reflexivity|].
  destruct (update_path_uses_the_caller_id
              processBody_spec (unmarshal_null None)
              (client_answering 200 (inl "null")) 55 zero_Shipment)
    as (_ & _ & _ & _ & Hzero).
  exact (Hzero eq_refl).
Defined.

(** ** More properties at concrete inputs *)

(** A 200 answer whose body is the JSON text [null]: the inventory reader
    returns the address of an empty resource, the shipment reader a nil
    pointer, both with a nil error. *)
Lemma decoded_value_witness :
  answered (client_answering 200 (inl "null"))
    (GetInventoryForLocation processBody_spec
       (unmarshal_null zero_InventoryResource) range_sorted
       (client_answering 200 (inl "null")) 42 ∅)
    {| StatusCode := 200; Response_Body := inl "null" |}
  /\ decoded processBody_spec (unmarshal_null zero_InventoryResource)
       {| StatusCode := 200; Response_Body := inl "null" |}
       zero_InventoryResource
  /\ decoded processBody_spec (unmarshal_null (None : option Shipment))
       {| StatusCode := 200; Response_Body := inl "null" |} None
  /\ result (GetInventoryForLocation processBody_spec
               (unmarshal_null zero_InventoryResource) range_sorted
               (client_answering 200 (inl "null")) 42 ∅)
     = (Some zero_InventoryResource, None)
  /\ result (GetOrderShipment processBody_spec (unmarshal_null None)
               (client_answering 200 (inl "null")) 55 7)
     = (None, None)
  /\ result (CreateOrderShipment processBody_spec (unmarshal_null None)
               (client_answering 200 (inl "null")) 55 zero_Shipment)
     = (None, None).
Proof.
  assert (Hanswer : answered (client_answering 200 (inl "null"))
                      (GetInventoryForLocation processBody_spec
                         (unmarshal_null zero_InventoryResource) range_sorted
                         (client_answering 200 (inl "null")) 42 ∅)
                      {| StatusCode := 200; Response_Body := inl "null" |})
    by (eexists; split; reflexivity).
  assert (Hresource : decoded processBody_spec
                        (unmarshal_null zero_InventoryResource)
                        {| StatusCode := 200; Response_Body := inl "null" |}
                        zero_InventoryResource)
    by (exists "null"; split; reflexivity).
  assert (Hpointer : decoded processBody_spec
                       (unmarshal_null (None : option Shipment))
                       {| StatusCode := 200; Response_Body := inl "null" |}
                       None)
    by (exists "null"; split; reflexivity).
  destruct (decoded_value_is_returned
              processBody_spec (unmarshal_null zero_InventoryResource)
              (unmarshal_null None) (unmarshal_null None) range_sorted
              (client_answering 200 (inl "null")) 42 55 7 ∅ zero_Shipment
              {| StatusCode := 200; Response_Body := inl "null" |})
    as (Hinv & _ & Hshipment).
  destruct (Hshipment None Hpointer) as (Hget & Hcreate & _).
  split; [exact Hanswer|]. split; [exact Hresource|].
  split; [exact Hpointer|].
  split; [exact (Hinv _ Hanswer Hresource)|].
  split; [apply Hget|apply Hcreate]; (eexists; split; reflexivity).
Defined.

(** A 204 and a 500 answer with the same body, under a body extraction
    that reads the body whatever the status is: the same result. *)
Lemma status_witness :
  processBody_reading {| StatusCode := 204; Response_Body := inl "null" |}
  = processBody_reading {| StatusCode := 500; Response_Body := inl "null" |}
  /\ (forall body err,
        processBody_reading
          {| StatusCode := 204; Response_Body := inl "null" |}
        = (body, Some err) ->
        (StatusCode {| StatusCode := 204; Response_Body := inl "null" |}
         =? StatusNoContent)%Z
        = (StatusCode {| StatusCode := 500; Response_Body := inl "null" |}
           =? StatusNoContent)%Z)
  /\ (StatusCode {| StatusCode := 204; Response_Body := inl "null" |}
      =? StatusNoContent)%Z
     <> (StatusCode {| StatusCode := 500; Response_Body := inl "null" |}
         =? StatusNoContent)%Z
  /\ result (GetOrderShipment processBody_reading (unmarshal_null None)
               (client_answering 204 (inl "null")) 55 7)
     = result (GetOrderShipment processBody_reading (unmarshal_null None)
                 (client_answering 500 (inl "null")) 55 7)
  /\ result (CreateOrderShipment processBody_reading (unmarshal_null None)
               (client_answering 204 (inl "null")) 55 zero_Shipment)
     = result (CreateOrderShipment processBody_reading (unmarshal_null None)
                 (client_answering 500 (inl "null")) 55 zero_Shipment).
Proof.
  assert (Hbody :
    processBody_reading {| StatusCode := 204; Response_Body := inl "null" |}
    = processBody_reading
        {| StatusCode := 500; Response_Body := inl "null" |})
    by reflexivity.
  assert (Hstatus : forall body err,
    processBody_reading {| StatusCode := 204; Response_Body := inl "null" |}
    = (body, Some err) ->
    (StatusCode {| StatusCode := 204; Response_Body := inl "null" |}
     =? StatusNoContent)%Z
    = (StatusCode {| StatusCode := 500; Response_Body := inl "null" |}
       =? StatusNoContent)%Z)
    by (intros body err Hfailed; discriminate Hfailed).
  destruct (status_is_only_compared_with_204
              processBody_reading (unmarshal_null zero_InventoryResource)
              (unmarshal_null None) (unmarshal_null None) range_sorted
              (client_answering 204 (inl "null"))
              (client_answering 500 (inl "null")) 42 55 7 ∅ zero_Shipment
              _ _ Hbody Hstatus)
    as (_ & _ & Hget & Hcreate & _).
  split; [exact Hbody|]. split; [exact Hstatus|].
  split; [intros Hsame; discriminate Hsame|].
  split; [apply Hget|apply Hcreate]; (eexists; split; reflexivity).
Defined.

(** The same URL from a reachable and from an unreachable server: the
    same ids; and deleting all shipments of order 7 is not deleting
    shipment 0 of order 7. *)
Lemma paths_witness :
  List.map URL (sent (DeleteOrderShipment
                        (client_answering 200 (inl "")) 7 99))
  = List.map URL (sent (DeleteOrderShipment
                          (client_failing "connection refused") 7 99))
  /\ (7 = 7 /\ 99 = 99)
  /\ List.map URL (sent (DeleteOrderShipments
                           (client_answering 200 (inl "")) 7))
     <> List.map URL (sent (DeleteOrderShipment
                              (client_answering 200 (inl "")) 7 0)).
Proof.
  assert (Hsame :
    List.map URL (sent (DeleteOrderShipment
                          (client_answering 200 (inl "")) 7 99))
    = List.map URL (sent (DeleteOrderShipment
                            (client_failing "connection refused") 7 99)))
    by reflexivity.
  split; [exact Hsame|]. split.
  - destruct (paths_determine_the_ids
                processBody_spec (unmarshal_null None)
                (client_answering 200 (inl ""))
                (client_failing "connection refused") 7 7 99 99
                zero_Shipment zero_Shipment)
      as (_ & Hdelete & _).
    exact (Hdelete Hsame).
  - destruct (paths_determine_the_ids
                processBody_spec (unmarshal_null None)
                (client_answering 200 (inl ""))
                (client_answering 200 (inl "")) 7 7 99 0
                zero_Shipment zero_Shipment)
      as (_ & _ & _ & _ & Hdistinct).
    exact Hdistinct.
Defined.

(** Shipment 0 of order 55. *)
Lemma one_address_witness :
  ID zero_Shipment = 0
  /\ sent (GetOrderShipment processBody_spec (unmarshal_null None)
             (client_answering 200 (inl "null")) 55 0)
     = [ {| Method := "GET"; URL := "/v2/orders/55/shipments/0";
            Body := None |} ]
  /\ sent (DeleteOrderShipment (client_answering 200 (inl "null")) 55 0)
     = [ {| Method := "DELETE"; URL := "/v2/orders/55/shipments/0";
            Body := None |} ]
  /\ List.map (fun req => (Method req, URL req))
       (sent (UpdateOrderShipment processBody_spec (unmarshal_null None)
                (client_answering 200 (inl "null")) 55 zero_Shipment))
     = [ ("PUT", "/v2/orders/55/shipments/0") ].
Proof.
  destruct (one_shipment_one_address
              processBody_spec (unmarshal_null None)
              (client_answering 200 (inl "null")) 55 0 zero_Shipment eq_refl)
    as (Hget & Hdelete & Hupdate & _).
  split; [reflexivity|].
  split; [exact Hget|]. split; [exact Hdelete|exact Hupdate].
Defined.

Lemma sku_filter_entries (k v : string) :
  ({[ "sku.in" := "A,B" ]} : gmap string string) !! k = Some v ->
  k = "sku.in" /\ v = "A,B".
Proof.
  intros Hkv. apply lookup_singleton_Some in Hkv as [<- <-]. done.
Defined.

Lemma page_limit_entries (k v : string) :
  (<[ "limit" := "50" ]> {[ "page" := "2" ]} : gmap string string) !! k
  = Some v ->
  (k = "limit" /\ v = "50") \/ (k = "page" /\ v = "2").
Proof.
  intros Hkv. apply lookup_insert_Some in Hkv as [[<- <-]|[_ Hkv]].
  - by left.
  - apply lookup_singleton_Some in Hkv as [<- <-]. by right.
Defined.

(** The filters [limit = 50] and [page = 2]: two segments. *)
Lemma query_segments_witness :
  (forall k v,
     (<[ "limit" := "50" ]> {[ "page" := "2" ]} : gmap string string) !! k
     = Some v -> occurs "&" k = false /\ occurs "&" v = false)
  /\ exists segments : list string,
       length segments
       = size (<[ "limit" := "50" ]> {[ "page" := "2" ]}
               : gmap string string)
       /\ segments
          ≡ₚ List.map segment
               (map_to_list (<[ "limit" := "50" ]> {[ "page" := "2" ]}
                             : gmap string string))
       /\ sent (GetInventoryForLocation processBody_spec
                  (unmarshal_null zero_InventoryResource) range_sorted
                  (client_answering 200 (inl "null")) 42
                  (<[ "limit" := "50" ]> {[ "page" := "2" ]}))
          = [ getAPIRequest MethodGet
                (("/v3/inventory/locations/" +:+ fmt_d 42 +:+ "/items")
                 +:+ strings_Join segments "&") None ]
       /\ sent (GetOrderShipments processBody_spec (unmarshal_null None)
                  range_sorted (client_answering 200 (inl "null")) 55
                  (<[ "limit" := "50" ]> {[ "page" := "2" ]}))
          = [ getAPIRequest MethodGet
                ("/v2/orders/" +:+ fmt_d 55 +:+ "/shipments?"
                 +:+ strings_Join segments "&") None ]
       /\ query_pieces (strings_Join segments "&") = segments
       /\ exactly_one_segment_per_entry (strings_Join segments "&")
            (<[ "limit" := "50" ]> {[ "page" := "2" ]}).
Proof.
  assert (Hfilters : forall k v,
            (<[ "limit" := "50" ]> {[ "page" := "2" ]}
             : gmap string string) !! k = Some v ->
            occurs "&" k = false /\ occurs "&" v = false).
  { intros k v Hkv.
    apply page_limit_entries in Hkv as [[-> ->]|[-> ->]];
      split; reflexivity. }
  split; [exact Hfilters|].
  exact (query_has_exactly_one_segment_per_entry
           processBody_spec (unmarshal_null zero_InventoryResource)
           (unmarshal_null None) range_sorted range_sorted_perm
           (client_answering 200 (inl "null")) 42 55
           (<[ "limit" := "50" ]> {[ "page" := "2" ]}) Hfilters).
Defined.

(** Without the condition on [&] the count fails: the mapping with the one
    entry [limit = 50&page=2] gives the query [limit=50&page=2], which has
    two segments, and the second is the text of no entry. *)
Lemma query_segments_counterexample :
  size ({[ "limit" := "50&page=2" ]} : gmap string string) = 1%nat
  /\ sent (GetOrderShipments processBody_spec (unmarshal_null None)
             range_sorted (client_answering 200 (inl "null")) 55
             {[ "limit" := "50&page=2" ]})
     = [ {| Method := "GET";
            URL := "/v2/orders/55/shipments?limit=50&page=2";
            Body := None |} ]
  /\ sent (GetInventoryForLocation processBody_spec
             (unmarshal_null zero_InventoryResource) range_sorted
             (client_answering 200 (inl "null")) 42
             {[ "limit" := "50&page=2" ]})
     = [ {| Method := "GET";
            URL := "/v3/inventory/locations/42/itemslimit=50&page=2";
            Body := None |} ]
  /\ query_pieces "limit=50&page=2" = [ "limit=50"; "page=2" ]
  /\ ~ (exists query,
          sent (GetOrderShipments processBody_spec (unmarshal_null None)
                  range_sorted (client_answering 200 (inl "null")) 55
                  {[ "limit" := "50&page=2" ]})
          = [ getAPIRequest MethodGet
                ("/v2/orders/55/shipments?" +:+ query) None ]
          /\ exactly_one_segment_per_entry query
               {[ "limit" := "50&page=2" ]})
  /\ ~ (exists query,
          sent (GetInventoryForLocation processBody_spec
                  (unmarshal_null zero_InventoryResource) range_sorted
                  (client_answering 200 (inl "null")) 42
                  {[ "limit" := "50&page=2" ]})
          = [ getAPIRequest MethodGet
                ("/v3/inventory/locations/42/items" +:+ query) None ]
          /\ exactly_one_segment_per_entry query
               {[ "limit" := "50&page=2" ]}).
Proof.
  split; [reflexivity|]. split; [reflexivity|]. split; [reflexivity|].
  split; [reflexivity|].
  assert (Hshipments :
    sent (GetOrderShipments processBody_spec (unmarshal_null None)
            range_sorted (client_answering 200 (inl "null")) 55
            {[ "limit" := "50&page=2" ]})
    = [ getAPIRequest MethodGet
          ("/v2/orders/55/shipments?" +:+ "limit=50&page=2") None ])
    by reflexivity.
  assert (Hinventory :
    sent (GetInventoryForLocation processBody_spec
            (unmarshal_null zero_InventoryResource) range_sorted
            (client_answering 200 (inl "null")) 42
            {[ "limit" := "50&page=2" ]})
    = [ getAPIRequest MethodGet
          ("/v3/inventory/locations/42/items" +:+ "limit=50&page=2") None ])
    by reflexivity.
  split; intros (query & Hsent & Hcount & _).
  - rewrite Hshipments in Hsent. apply one_request in Hsent.
    apply (f_equal URL) in Hsent. cbn [URL getAPIRequest] in Hsent.
    apply String.app_inj in Hsent. subst query.
    vm_compute in Hcount. discriminate Hcount.
  - rewrite Hinventory in Hsent. apply one_request in Hsent.
    apply (f_equal URL) in Hsent. cbn [URL getAPIRequest] in Hsent.
    apply String.app_inj in Hsent. subst query.
    vm_compute in Hcount. discriminate Hcount.
Qed.

(** The filter [sku.in = A,B] holds no [?]: the inventory URL has none. *)
Lemma no_question_mark_witness :
  (forall k v,
     ({[ "sku.in" := "A,B" ]} : gmap string string) !! k = Some v ->
     occurs "?" k = false /\ occurs "?" v = false)
  /\ Forall (fun req => occurs "?" (URL req) = false)
       (sent (GetInventoryForLocation processBody_spec
                (unmarshal_null zero_InventoryResource) range_sorted
                (client_answering 200 (inl "null")) 42
                {[ "sku.in" := "A,B" ]})).
Proof.
  assert (Hfilters : forall k v,
            ({[ "sku.in" := "A,B" ]} : gmap string string) !! k = Some v ->
            occurs "?" k = false /\ occurs "?" v = false).
  { intros k v Hkv. apply sku_filter_entries in Hkv as [-> ->].
    split; reflexivity. }
  split; [exact Hfilters|].
  exact (proj1 (inventory_url_has_no_question_mark_of_its_own
                  processBody_spec (unmarshal_null zero_InventoryResource)
                  (unmarshal_null None) range_sorted range_sorted_perm
                  (client_answering 200 (inl "null")) 42 55
                  {[ "sku.in" := "A,B" ]} Hfilters)).
Defined.

(** The filters [limit = 50] and [page = 2] read back from the query. *)
Lemma query_reads_back_witness :
  (forall k v,
     (<[ "limit" := "50" ]> {[ "page" := "2" ]} : gmap string string) !! k
     = Some v -> readable (k, v))
  /\ exists query,
       sent (GetOrderShipments processBody_spec (unmarshal_null None)
               range_sorted (client_answering 200 (inl "null")) 55
               (<[ "limit" := "50" ]> {[ "page" := "2" ]}))
       = [ getAPIRequest MethodGet
             ("/v2/orders/" +:+ fmt_d 55 +:+ "/shipments?" +:+ query) None ]
       /\ sent (GetInventoryForLocation processBody_spec
                  (unmarshal_null zero_InventoryResource) range_sorted
                  (client_answering 200 (inl "null")) 42
                  (<[ "limit" := "50" ]> {[ "page" := "2" ]}))
          = [ getAPIRequest MethodGet
                (("/v3/inventory/locations/" +:+ fmt_d 42 +:+ "/items")
                 +:+ query) None ]
       /\ split_query query
          ≡ₚ map_to_list (<[ "limit" := "50" ]> {[ "page" := "2" ]}
                          : gmap string string)
       /\ list_to_map (split_query query)
          = (<[ "limit" := "50" ]> {[ "page" := "2" ]}
             : gmap string string).
Proof.
  assert (Hfilters : forall k v,
            (<[ "limit" := "50" ]> {[ "page" := "2" ]}
             : gmap string string) !! k = Some v -> readable (k, v)).
  { intros k v Hkv.
    apply page_limit_entries in Hkv as [[-> ->]|[-> ->]];
      repeat split; reflexivity. }
  split; [exact Hfilters|].
  exact (query_reads_back_as_the_filters
           processBody_spec (unmarshal_null zero_InventoryResource)
           (unmarshal_null None) range_sorted range_sorted_perm
           (client_answering 200 (inl "null")) 42 55
           (<[ "limit" := "50" ]> {[ "page" := "2" ]}) Hfilters).
Defined.

(** The one filter [limit = 50&page=2] and the two filters [limit = 50],
    [page = 2]. *)
Lemma separators_witness :
  range_sorted (<[ "limit" := "50" ]> {[ "page" := "2" ]})
  = [ ("limit", "50"); ("page", "2") ]
  /\ sent (GetOrderShipments processBody_spec (unmarshal_null None)
             range_sorted (client_answering 200 (inl "null")) 55
             {[ "limit" := "50" +:+ "&" +:+ "page" +:+ "=" +:+ "2" ]})
     = sent (GetOrderShipments processBody_spec (unmarshal_null None)
               range_sorted (client_answering 200 (inl "null")) 55
               (<[ "limit" := "50" ]> {[ "page" := "2" ]})).
Proof.
  assert (Horder : range_sorted (<[ "limit" := "50" ]> {[ "page" := "2" ]})
                   = [ ("limit", "50"); ("page", "2") ])
    by (vm_compute; reflexivity).
  split; [exact Horder|].
  exact (proj1 (separators_in_a_value_read_as_a_second_filter
                  processBody_spec (unmarshal_null zero_InventoryResource)
                  (unmarshal_null None) range_sorted range_sorted_perm
                  (client_answering 200 (inl "null")) 42 55
                  "limit" "50" "page" "2" Horder)).
Defined.

(** A shipment that differs from the zero shipment only in members that
    are not on the allow-list. *)
Lemma allow_list_only_witness :
  CreateOrderShipment processBody_spec (unmarshal_null None)
    (client_answering 200 (inl "null")) 55
    {| ID := 0; OrderId := 55; CustomerId := 3; OrderAddressId := 0;
       DateCreated := "Wed, 19 Dec 2012 17:17:10 +0000";
       TrackingNumber := ""; MerchantShippingCost := "1.00";
       ShippingMethod := ""; Comments := ""; ShippingProvider := "";
       TrackingCarrier := ""; BillingAddress := None;
       ShippingAddress := None; Items := None |}
  = CreateOrderShipment processBody_spec (unmarshal_null None)
      (client_answering 200 (inl "null")) 55 zero_Shipment
  /\ UpdateOrderShipment processBody_spec (unmarshal_null None)
       (client_answering 200 (inl "null")) 55
       {| ID := 0; OrderId := 55; CustomerId := 3; OrderAddressId := 0;
          DateCreated := "Wed, 19 Dec 2012 17:17:10 +0000";
          TrackingNumber := ""; MerchantShippingCost := "1.00";
          ShippingMethod := ""; Comments := ""; ShippingProvider := "";
          TrackingCarrier := ""; BillingAddress := None;
          ShippingAddress := None; Items := None |}
     = UpdateOrderShipment processBody_spec (unmarshal_null None)
         (client_answering 200 (inl "null")) 55 zero_Shipment.
Proof.
  destruct (only_the_allow_list_reaches_the_server
              processBody_spec (unmarshal_null None)
              (client_answering 200 (inl "null")) 55
              {| ID := 0; OrderId := 55; CustomerId := 3;
                 OrderAddressId := 0;
                 DateCreated := "Wed, 19 Dec 2012 17:17:10 +0000";
                 TrackingNumber := ""; MerchantShippingCost := "1.00";
                 ShippingMethod := ""; Comments := "";
                 ShippingProvider := ""; TrackingCarrier := "";
                 BillingAddress := None; ShippingAddress := None;
                 Items := None |}
              zero_Shipment
              eq_refl eq_refl eq_refl eq_refl eq_refl eq_refl eq_refl)
    as (Hcreate & Hupdate).
  split; [exact Hcreate|exact (Hupdate eq_refl)].
Defined.

(** ** Further examples *)

(** Two filters under [range_sorted]: the segments keep the characters of
    the keys and values and are separated by one [&]. *)
Example two_filters_query :
  sent (GetOrderShipments processBody_spec (unmarshal_null None) range_sorted
          (client_answering 200 (inl "null")) 55
          (<[ "page" := "2" ]> {[ "limit" := "50" ]}))
  = [ {| Method := "GET"; URL := "/v2/orders/55/shipments?limit=50&page=2";
         Body := None |} ].
Proof. reflexivity. Qed.

(** An update whose input carries server-assigned members, a merchant
    shipping cost and a billing address: the path has the id, the body has
    none of them, and [<] in the tracking number is written escaped. *)
Example populated_shipment_update :
  sent (UpdateOrderShipment processBody_spec (unmarshal_null None)
          (client_answering 200 (inl "null")) 55
          {| ID := 9; OrderId := 55; CustomerId := 3; OrderAddressId := 4;
             DateCreated := "Wed, 19 Dec 2012 17:17:10 +0000";
             TrackingNumber := "a<b"; MerchantShippingCost := "1.00";
             ShippingMethod := "Ground"; Comments := "";
             ShippingProvider := ""; TrackingCarrier := "";
             BillingAddress :=
               Some {| FirstName := "Ada"; LastName := "Lovelace";
                       Company := ""; Street1 := ""; Street2 := "";
                       City := ""; State := ""; Zip := ""; Country := "";
                       CountryIso2 := ""; Phone := ""; Email := "" |};
             ShippingAddress := None;
             Items := None |})
  = [ {| Method := "PUT"; URL := "/v2/orders/55/shipments/9";
         Body := Some (quoted
           "{'order_address_id':4,'tracking_number':'a\u003cb','merchant_shipping_cost':'','shipping_method':'Ground','comments':'','shipping_provider':'','tracking_carrier':'','items':null}") |} ].
Proof. reflexivity. Qed.
